(** * Reddit persona generator: analyzer and report renderer

    A shallow embedding of [PersonaAnalyzer] and [PersonaReportGenerator]
    from [reddit_persona_generator.py], with the properties of its keyword
    heuristics and of the rendered report.

    Python values are modelled as follows.
    - [str] is a list of Unicode code points ([pystr]); [len], slicing,
      [in], [count] and [split] work on code points as in Python.
    - [int] is [Z]; [float] is IEEE 754 binary64, through the Standard
      Library's [spec_float] operations at precision 53.
    - a [dict] is an association list in insertion order.
    - [str.lower], [str.upper] and [str.title] (Unicode case mappings of the
      interpreter) are parameters of the development.
    - [list(set(xs))] enumerates the distinct elements of [xs] in an order
      fixed by the interpreter process (string hashing is salted per
      process); it is a parameter too, constrained to be a permutation of
      the distinct elements.
    - [datetime.now()] is an explicit argument. *)

From Stdlib Require Import Ascii String.
From Stdlib Require Import ZArith List Bool Lia.
From Stdlib Require Import Permutation Sorted SpecFloat.
From Stdlib Require Decimal.
Import ListNotations.

Set Implicit Arguments.
Local Open Scope Z_scope.

(* ================================================================== *)
(** ** Python strings *)

Module PyStr.

(** A code point. *)
Definition char := N.

(** A Python [str]. *)
Definition pystr := list char.

(** A source literal (all literals of the analyzer are ASCII). *)
Definition py (s : string) : pystr :=
  map N_of_ascii (list_ascii_of_string s).

Definition eqb (a b : pystr) : bool :=
  if list_eq_dec N.eq_dec a b then true else false.

(** Truthiness of a string: [if s:]. *)
Definition truthy (s : pystr) : bool :=
  match s with [] => false | _ :: _ => true end.

(** [len(s)]. *)
Definition len (s : pystr) : Z := Z.of_nat (length s).

(** [s.startswith(p)]. *)
Fixpoint startswith (p s : pystr) : bool :=
  match p, s with
  | [], _ => true
  | _ :: _, [] => false
  | a :: p', b :: s' => N.eqb a b && startswith p' s'
  end.

(** [kw in text]. *)
Fixpoint contains (text kw : pystr) : bool :=
  startswith kw text ||
  match text with
  | [] => false
  | _ :: rest => contains rest kw
  end.

(** [text.count(kw)]: occurrences found scanning from the left, the scan
    resuming after each occurrence (so occurrences do not overlap).  The
    first argument counts the code points of the last occurrence that are
    still to be skipped. *)
Fixpoint count_from (skip : nat) (text kw : pystr) : nat :=
  match text with
  | [] => match kw with [] => 1%nat | _ :: _ => 0%nat end
  | _ :: rest =>
      match skip with
      | S k => count_from k rest kw
      | O => if startswith kw text
             then S (count_from (Nat.pred (length kw)) rest kw)
             else count_from 0 rest kw
      end
  end.

Definition count (text kw : pystr) : Z := Z.of_nat (count_from 0 text kw).

(** [sep.join(parts)]. *)
Fixpoint join (sep : pystr) (parts : list pystr) : pystr :=
  match parts with
  | [] => []
  | [p] => p
  | p :: rest => p ++ sep ++ join sep rest
  end.

(** [s * n]: repetition; a count that is zero or negative gives [""]. *)
Definition repeat_str (s : pystr) (n : Z) : pystr :=
  concat (repeat s (Z.to_nat n)).

(** [s[:n]] for [n >= 0]. *)
Definition take (n : nat) (s : pystr) : pystr := firstn n s.

(** [s.split(sep)] for a non-empty separator. *)
Fixpoint split_from (skip : nat) (acc : pystr) (text sep : pystr)
  : list pystr :=
  match text with
  | [] => [rev acc]
  | c :: rest =>
      match skip with
      | S k => split_from k acc rest sep
      | O => if startswith sep text
             then rev acc :: split_from (Nat.pred (length sep)) [] rest sep
             else split_from 0 (c :: acc) rest sep
      end
  end.

Definition split (text sep : pystr) : list pystr := split_from 0 [] text sep.

(** [s.replace(a, b)] for single code points [a] and [b]. *)
Definition replace_char (a b : char) (s : pystr) : pystr :=
  map (fun c => if N.eqb c a then b else c) s.

(** [f"{s:<w}"]: left-justified in a field of width [w]. *)
Definition ljust (w : nat) (s : pystr) : pystr :=
  s ++ repeat 32%N (w - length s).

(** Decimal digits of a non-negative integer. *)
Fixpoint of_uint (d : Decimal.uint) : pystr :=
  match d with
  | Decimal.Nil => []
  | Decimal.D0 d => 48%N :: of_uint d
  | Decimal.D1 d => 49%N :: of_uint d
  | Decimal.D2 d => 50%N :: of_uint d
  | Decimal.D3 d => 51%N :: of_uint d
  | Decimal.D4 d => 52%N :: of_uint d
  | Decimal.D5 d => 53%N :: of_uint d
  | Decimal.D6 d => 54%N :: of_uint d
  | Decimal.D7 d => 55%N :: of_uint d
  | Decimal.D8 d => 56%N :: of_uint d
  | Decimal.D9 d => 57%N :: of_uint d
  end.

(** [str(n)] for an [int]. *)
Definition of_int (n : Z) : pystr :=
  match n with
  | Z0 => py "0"
  | Zpos p => of_uint (Pos.to_uint p)
  | Zneg p => py "-" ++ of_uint (Pos.to_uint p)
  end.

(** An ASCII-only lower-casing, the restriction of [str.lower] to ASCII
    text; used to run the analyzer on concrete ASCII inputs. *)
Definition ascii_lower (s : pystr) : pystr :=
  map (fun c => if (65 <=? c)%N && (c <=? 90)%N then (c + 32)%N else c) s.

Definition ascii_upper (s : pystr) : pystr :=
  map (fun c => if (97 <=? c)%N && (c <=? 122)%N then (c - 32)%N else c) s.

End PyStr.

Import PyStr.

(** Sum of the occurrence counts of a keyword list:
    [sum(text.count(keyword) for keyword in keywords)]. *)
Definition sum_counts (text : pystr) (keywords : list pystr) : Z :=
  fold_left Z.add (map (count text) keywords) 0.

(** [any(word in text for word in words)]. *)
Definition any_in (text : pystr) (words : list pystr) : bool :=
  existsb (contains text) words.

(* ================================================================== *)
(** ** Python floats: IEEE 754 binary64 *)

Module Binary64.

Definition prec : Z := 53.
Definition emax : Z := 1024.

Definition float := spec_float.

(** An integer as an exact, not normalised, finite float. *)
Definition exact_of_int (z : Z) : float :=
  match z with
  | Z0 => S754_zero false
  | Zpos p => S754_finite false p 0
  | Zneg p => S754_finite true p 0
  end.

(** [float(z)], correctly rounded. *)
Definition of_int (z : Z) : float := binary_normalize prec emax z 0 false.

(** [a / b] on two [int]s: the correctly rounded quotient;
    [ZeroDivisionError] and [OverflowError] are [None]. *)
Definition int_truediv (a b : Z) : option float :=
  if b =? 0 then None
  else match SFdiv prec emax (exact_of_int a) (exact_of_int b) with
       | S754_infinity _ | S754_nan => None
       | q => Some q
       end.

(** [x * y] on two floats. *)
Definition mul (x y : float) : float := SFmul prec emax x y.

(** [int(x)]: truncation toward zero; infinities and NaN raise. *)
Definition to_int (x : float) : option Z :=
  match x with
  | S754_zero _ => Some 0
  | S754_finite s m e =>
      Some (cond_Zopp s (if 0 <=? e then Zpos m * 2 ^ e
                         else Zpos m / 2 ^ (- e)))
  | S754_infinity _ | S754_nan => None
  end.

End Binary64.

(** Exceptions: a computation that raises is [None]. *)
Notation "x <- e ;; k" :=
  (match e with Some x => k | None => None end)
  (at level 61, e at next level, right associativity).

(* ================================================================== *)
(** ** Personality axes *)

(** [int((pole_b / total) * 100)], the last line of each axis function. *)
Definition percent_of (pole_b total : Z) : option Z :=
  match Binary64.int_truediv pole_b total with
  | Some q => Binary64.to_int (Binary64.mul q (Binary64.of_int 100))
  | None => None
  end.

(** The body shared by the four axis functions: [pole_a] are the keywords
    of the pole at score 0, [pole_b] those of the pole at score 100. *)
Definition axis_score (pole_a pole_b : list pystr) (text : pystr)
  : option Z :=
  let b_score := sum_counts text pole_b in
  let a_score := sum_counts text pole_a in
  let total := b_score + a_score in
  if total =? 0 then Some 50 else percent_of b_score total.

Definition extrovert_keywords : list pystr :=
  map py ["party"; "social"; "friends"; "meeting people"; "networking"]%string.
Definition introvert_keywords : list pystr :=
  map py ["alone"; "quiet"; "home"; "reading"; "solitude"]%string.

Definition _analyze_introversion_extroversion (text : pystr) : option Z :=
  axis_score introvert_keywords extrovert_keywords text.

Definition intuition_keywords : list pystr :=
  map py ["future"; "possibility"; "theory"; "concept"; "idea"]%string.
Definition sensing_keywords : list pystr :=
  map py ["practical"; "facts"; "details"; "experience"; "reality"]%string.

Definition _analyze_intuition_sensing (text : pystr) : option Z :=
  axis_score intuition_keywords sensing_keywords text.

Definition feeling_keywords : list pystr :=
  map py ["feel"; "emotion"; "heart"; "care"; "empathy"]%string.
Definition thinking_keywords : list pystr :=
  map py ["logic"; "rational"; "analyze"; "objective"; "reason"]%string.

Definition _analyze_feeling_thinking (text : pystr) : option Z :=
  axis_score feeling_keywords thinking_keywords text.

Definition perceiving_keywords : list pystr :=
  map py ["flexible"; "spontaneous"; "adapt"; "open"; "explore"]%string.
Definition judging_keywords : list pystr :=
  map py ["plan"; "organize"; "schedule"; "structure"; "decide"]%string.

Definition _analyze_perceiving_judging (text : pystr) : option Z :=
  axis_score perceiving_keywords judging_keywords text.

(* ================================================================== *)
(** ** Dictionaries, in insertion order *)

Module Dict.

Definition dict (V : Type) := list (pystr * V).

(** [d.get(k)]. *)
Fixpoint get V (d : dict V) (k : pystr) : option V :=
  match d with
  | [] => None
  | (k', v) :: rest => if PyStr.eqb k' k then Some v else get rest k
  end.

(** [d.get(k, default)]. *)
Definition get_default V (d : dict V) (k : pystr) (default : V) : V :=
  match get d k with Some v => v | None => default end.

(** [d[k] = v]: an existing key keeps its position, a new key goes last. *)
Fixpoint set V (d : dict V) (k : pystr) (v : V) : dict V :=
  match d with
  | [] => [(k, v)]
  | (k', v') :: rest =>
      if PyStr.eqb k' k then (k', v) :: rest else (k', v') :: set rest k v
  end.

(** [d.items()]. *)
Definition items V (d : dict V) : list (pystr * V) := d.

Definition keys V (d : dict V) : list pystr := map fst d.

End Dict.

(* ================================================================== *)
(** ** Data model *)

(** A post as built by [RedditScraper.get_user_posts]. *)
Record Post := {
  post_id : pystr;
  post_title : pystr;
  post_selftext : pystr;
  post_subreddit : pystr;
  post_score : Z;
  post_created_utc : Z;
  post_url : pystr;
  post_num_comments : Z
}.

(** A comment as built by [RedditScraper.get_user_comments]. *)
Record Comment := {
  comment_id : pystr;
  comment_body : pystr;
  comment_subreddit : pystr;
  comment_score : Z;
  comment_created_utc : Z;
  comment_url : pystr;
  comment_link_title : pystr
}.

Record Demographics := {
  age : pystr;
  occupation : pystr;
  status : pystr;
  location : pystr
}.

Record Personality := {
  introvert_extrovert : Z;
  intuition_sensing : Z;
  feeling_thinking : Z;
  perceiving_judging : Z;
  characteristics : list pystr
}.

Record Persona := {
  username : pystr;
  profile_url : pystr;
  analysis_date : pystr;
  total_posts : Z;
  total_comments : Z;
  demographics : Demographics;
  personality : Personality;
  motivations : Dict.dict Z;
  behaviors : list pystr;
  frustrations : list pystr;
  goals : list pystr;
  raw_posts : list Post;
  raw_comments : list Comment
}.

(** [len(xs)] of a list. *)
Definition llen A (xs : list A) : Z := Z.of_nat (length xs).

(** Truthiness of a list. *)
Definition nonempty A (xs : list A) : bool :=
  match xs with [] => false | _ :: _ => true end.

(* ================================================================== *)
(** ** Keyword tables *)

Definition table (rows : list (string * string)) : list (pystr * pystr) :=
  map (fun r => (py (fst r), py (snd r))) rows.

Definition groups (rows : list (string * list string))
  : list (pystr * list pystr) :=
  map (fun r => (py (fst r), map py (snd r))) rows.

Definition age_indicators : list (pystr * pystr) := table [
  ("college", "20-22"); ("university", "18-25"); ("student", "18-25");
  ("graduated", "22-30"); ("job", "25-35"); ("career", "25-40");
  ("retirement", "60+"); ("kids", "28-45"); ("children", "28-45");
  ("mortgage", "30-50"); ("marriage", "25-40") ]%string.

Definition location_indicators : list (pystr * pystr) := table [
  ("usa", "United States"); ("america", "United States");
  ("us", "United States"); ("canada", "Canada"); ("uk", "United Kingdom");
  ("britain", "United Kingdom"); ("australia", "Australia");
  ("germany", "Germany"); ("france", "France"); ("europe", "Europe") ]%string.

Definition occupation_keywords : list (pystr * pystr) := table [
  ("software", "Software Developer"); ("programming", "Software Developer");
  ("coding", "Software Developer"); ("developer", "Software Developer");
  ("engineer", "Engineer"); ("teacher", "Teacher"); ("student", "Student");
  ("doctor", "Healthcare Professional"); ("nurse", "Healthcare Professional");
  ("manager", "Manager"); ("designer", "Designer");
  ("marketing", "Marketing Professional"); ("sales", "Sales Professional");
  ("finance", "Finance Professional"); ("lawyer", "Legal Professional")
  ]%string.

Definition helpful_keywords : list pystr :=
  map py ["help"; "advice"; "suggest"; "recommend"; "try this"]%string.
Definition enthusiasm_keywords : list pystr :=
  map py ["awesome"; "amazing"; "love"; "excited"; "!"]%string.
Definition analytical_keywords : list pystr :=
  map py ["analysis"; "data"; "research"; "study"; "statistics"]%string.
Definition creative_keywords : list pystr :=
  map py ["creative"; "art"; "design"; "music"; "write"; "draw"]%string.

Definition motivation_keywords : list (pystr * list pystr) := groups [
  ("convenience", ["easy"; "quick"; "fast"; "convenient"; "simple"]);
  ("wellness", ["health"; "fitness"; "exercise"; "diet"; "wellness"]);
  ("speed", ["fast"; "quick"; "rapid"; "immediate"; "instant"]);
  ("preferences", ["prefer"; "like"; "favorite"; "choice"; "option"]);
  ("comfort", ["comfort"; "cozy"; "relaxing"; "peaceful"; "calm"]);
  ("dietary_needs", ["diet"; "nutrition"; "healthy"; "organic"; "vegan"])
  ]%string.

Definition frustration_patterns : list (pystr * list pystr) := groups [
  ("technology", ["slow"; "bug"; "crash"; "error"; "broken"]);
  ("time", ["waste time"; "too long"; "waiting"; "delay"]);
  ("information", ["confusing"; "unclear"; "hard to find"; "missing info"]);
  ("service", ["poor service"; "unhelpful"; "rude"; "disappointing"])
  ]%string.

Definition goal_keywords : list (pystr * list pystr) := groups [
  ("health", ["lose weight"; "get fit"; "healthy lifestyle"; "exercise more"]);
  ("career", ["promotion"; "new job"; "career growth"; "learn skills"]);
  ("financial", ["save money"; "investment"; "financial freedom"; "budget"]);
  ("education", ["learn"; "study"; "course"; "degree"; "certification"]);
  ("relationships", ["meet people"; "dating"; "friends"; "social"]);
  ("lifestyle", ["travel"; "hobby"; "experience"; "adventure"])
  ]%string.

(** The [if]/[elif] chain of [analyze_frustrations]: what is appended for a
    category. *)
Definition frustration_sentence (category : pystr) : list pystr :=
  if PyStr.eqb category (py "technology")
  then [py "Technology issues and software problems"]
  else if PyStr.eqb category (py "time")
  then [py "Time-wasting processes and delays"]
  else if PyStr.eqb category (py "information")
  then [py "Lack of clear information or instructions"]
  else if PyStr.eqb category (py "service")
  then [py "Poor customer service experiences"]
  else [].

(** The [if]/[elif] chain of [analyze_goals_and_needs]. *)
Definition goal_sentence (category : pystr) : list pystr :=
  if PyStr.eqb category (py "health")
  then [py "Maintain a healthy lifestyle and fitness routine"]
  else if PyStr.eqb category (py "career")
  then [py "Advance career and develop professional skills"]
  else if PyStr.eqb category (py "financial")
  then [py "Achieve financial stability and smart money management"]
  else if PyStr.eqb category (py "education")
  then [py "Continue learning and skill development"]
  else if PyStr.eqb category (py "relationships")
  then [py "Build meaningful relationships and social connections"]
  else if PyStr.eqb category (py "lifestyle")
  then [py "Explore new experiences and maintain work-life balance"]
  else [].

(* ================================================================== *)
(** ** PersonaAnalyzer *)

(** The loop [for keyword, value in table.items(): if keyword in text:
    result = value; break], started from [default]. *)
Fixpoint first_match (tbl : list (pystr * pystr)) (text default : pystr)
  : pystr :=
  match tbl with
  | [] => default
  | (keyword, value) :: rest =>
      if contains text keyword then value else first_match rest text default
  end.

(** The inner loop of the frustration and goal analyses: at the first
    keyword found in the text, [found] is appended and the loop breaks. *)
Fixpoint first_hit (keywords : list pystr) (text : pystr)
  (found : list pystr) : list pystr :=
  match keywords with
  | [] => []
  | keyword :: rest =>
      if contains text keyword then found else first_hit rest text found
  end.

(** [sorted(items, key=lambda x: x[1], reverse=True)]: a stable sort by
    decreasing count; an item goes before the first item of the sorted rest
    whose count is not larger than its own. *)
Fixpoint insert_desc (x : pystr * Z) (sorted : list (pystr * Z))
  : list (pystr * Z) :=
  match sorted with
  | [] => [x]
  | y :: rest =>
      if snd x <? snd y then y :: insert_desc x rest else x :: y :: rest
  end.

Fixpoint sorted_desc (items : list (pystr * Z)) : list (pystr * Z) :=
  match items with
  | [] => []
  | x :: rest => insert_desc x (sorted_desc rest)
  end.

(** One step of the two counting loops:
    [if subreddit: counts[subreddit] = counts.get(subreddit, 0) + 1]. *)
Definition count_subreddit (counts : Dict.dict Z) (subreddit : pystr)
  : Dict.dict Z :=
  if truthy subreddit
  then Dict.set counts subreddit (Dict.get_default counts subreddit 0 + 1)
  else counts.

Definition subreddit_counts (posts : list Post) (comments : list Comment)
  : Dict.dict Z :=
  fold_left count_subreddit (map comment_subreddit comments)
    (fold_left count_subreddit (map post_subreddit posts) []).

Definition top_subreddits (posts : list Post) (comments : list Comment)
  : list (pystr * Z) :=
  firstn 3 (sorted_desc (Dict.items (subreddit_counts posts comments))).

(** [f"Active in r/{subreddit} community with {count} posts/comments"]. *)
Definition behavior_desc (entry : pystr * Z) : pystr :=
  py "Active in r/" ++ fst entry ++ py " community with "
  ++ PyStr.of_int (snd entry) ++ py " posts/comments".

Definition posting_pattern (posts : list Post) : list pystr :=
  if 20 <? llen posts
  then [py "Frequent poster - shares content regularly"]
  else if 5 <? llen posts
  then [py "Occasional poster - shares content sometimes"]
  else [].

Definition commenting_pattern (comments : list Comment) : list pystr :=
  if 50 <? llen comments
  then [py "Very active commenter - engages frequently in discussions"]
  else if 20 <? llen comments
  then [py "Regular commenter - participates in community discussions"]
  else [].

Definition analyze_behavior_and_habits (posts : list Post)
  (comments : list Comment) : list pystr :=
  map behavior_desc (top_subreddits posts comments)
  ++ posting_pattern posts ++ commenting_pattern comments.

Section Analyzer.

(** [str.lower] of the interpreter. *)
Variable lower : pystr -> pystr.

(** [list(set(xs))] in the interpreter process of the run. *)
Variable set_list : list pystr -> list pystr.

(** The text of [analyze_demographics]: titles, bodies and comment bodies
    joined by single spaces, then lower-cased. *)
Definition demographics_text (posts : list Post) (comments : list Comment)
  : pystr :=
  lower (join (py " ")
           (flat_map (fun post => [post_title post; post_selftext post]) posts
            ++ map comment_body comments)).

Definition analyze_demographics (posts : list Post)
  (comments : list Comment) : Demographics :=
  let combined_text := demographics_text posts comments in
  let age := first_match age_indicators combined_text (py "Unknown") in
  let location :=
    first_match location_indicators combined_text (py "Unknown") in
  let occupation :=
    first_match occupation_keywords combined_text (py "Unknown") in
  let relationship_status :=
    if any_in combined_text (map py ["wife"; "husband"; "married"; "spouse"]%string)
    then py "Married"
    else if any_in combined_text (map py ["girlfriend"; "boyfriend"; "dating"]%string)
    then py "In Relationship"
    else if any_in combined_text (map py ["single"; "dating app"]%string)
    then py "Single"
    else py "Unknown" in
  {| age := age; occupation := occupation;
     status := relationship_status; location := location |}.

(** The text of [analyze_personality_traits]: every item is lower-cased on
    its own, then the items are joined. *)
Definition personality_text (posts : list Post) (comments : list Comment)
  : pystr :=
  join (py " ")
    (map (fun post => lower (post_title post ++ py " " ++ post_selftext post))
         posts
     ++ map (fun comment => lower (comment_body comment)) comments).

Definition characteristics_of (combined_text : pystr) : list pystr :=
  (if 5 <? sum_counts combined_text helpful_keywords
   then [py "Helpful"] else [])
  ++ (if 10 <? sum_counts combined_text enthusiasm_keywords
      then [py "Enthusiastic"] else [])
  ++ (if 3 <? sum_counts combined_text analytical_keywords
      then [py "Analytical"] else [])
  ++ (if 3 <? sum_counts combined_text creative_keywords
      then [py "Creative"] else []).

Definition analyze_personality_traits (posts : list Post)
  (comments : list Comment) : option Personality :=
  let combined_text := personality_text posts comments in
  ie <- _analyze_introversion_extroversion combined_text ;;
  ns <- _analyze_intuition_sensing combined_text ;;
  ft <- _analyze_feeling_thinking combined_text ;;
  pj <- _analyze_perceiving_judging combined_text ;;
  Some {| introvert_extrovert := ie; intuition_sensing := ns;
          feeling_thinking := ft; perceiving_judging := pj;
          characteristics := characteristics_of combined_text |}.

(** The text of the motivation, frustration and goal analyses. *)
Definition content_text (posts : list Post) (comments : list Comment)
  : pystr :=
  lower (join (py " ")
           (map (fun post => post_title post ++ py " " ++ post_selftext post)
                posts
            ++ map comment_body comments)).

Definition analyze_motivations (posts : list Post) (comments : list Comment)
  : Dict.dict Z :=
  let combined_text := content_text posts comments in
  fold_left
    (fun motivations entry =>
       let score := sum_counts combined_text (snd entry) in
       Dict.set motivations (fst entry) (Z.min (score * 10) 100))
    motivation_keywords [].

(** The list built by the loops of [analyze_frustrations], before
    [list(set(...))]. *)
Definition frustrations_found (posts : list Post) (comments : list Comment)
  : list pystr :=
  let combined_text := content_text posts comments in
  flat_map
    (fun entry =>
       first_hit (snd entry) combined_text (frustration_sentence (fst entry)))
    frustration_patterns.

Definition analyze_frustrations (posts : list Post) (comments : list Comment)
  : list pystr :=
  set_list (frustrations_found posts comments).

Definition goals_found (posts : list Post) (comments : list Comment)
  : list pystr :=
  let combined_text := content_text posts comments in
  flat_map
    (fun entry =>
       first_hit (snd entry) combined_text (goal_sentence (fst entry)))
    goal_keywords.

Definition analyze_goals_and_needs (posts : list Post)
  (comments : list Comment) : list pystr :=
  set_list (goals_found posts comments).

(** [generate_persona]; [now] is [datetime.now().isoformat()]. *)
Definition generate_persona (now : pystr) (user : pystr)
  (posts : list Post) (comments : list Comment) : option Persona :=
  let demographics := analyze_demographics posts comments in
  personality <- analyze_personality_traits posts comments ;;
  let motivations := analyze_motivations posts comments in
  let behaviors := analyze_behavior_and_habits posts comments in
  let frustrations := analyze_frustrations posts comments in
  let goals := analyze_goals_and_needs posts comments in
  Some {| username := user;
          profile_url := py "https://www.reddit.com/user/" ++ user ++ py "/";
          analysis_date := now;
          total_posts := llen posts;
          total_comments := llen comments;
          demographics := demographics;
          personality := personality;
          motivations := motivations;
          behaviors := behaviors;
          frustrations := frustrations;
          goals := goals;
          raw_posts := firstn 5 posts;
          raw_comments := firstn 10 comments |}.

End Analyzer.

(* ================================================================== *)
(** ** PersonaReportGenerator *)

Definition FULL_BLOCK : pystr := [9608%N].
Definition LIGHT_SHADE : pystr := [9617%N].
Definition BULLET : pystr := [8226%N].
Definition QUOTE_MARK : pystr := [34%N].

Definition banner : pystr := repeat_str (py "=") 80.
Definition rule : pystr := repeat_str (py "-") 40.

(** One gauge line:
    [f"{left}{'█' * (10 - score//10)}{'░' * (score//10)}{right}"]. *)
Definition gauge_line (left_label right_label : pystr) (score : Z)
  : pystr :=
  left_label ++ repeat_str FULL_BLOCK (10 - score / 10)
  ++ repeat_str LIGHT_SHADE (score / 10) ++ right_label.

Definition gauge_lines (p : Personality) : list pystr :=
  [ gauge_line (py "INTROVERT ") (py " EXTROVERT") (introvert_extrovert p);
    gauge_line (py "INTUITION ") (py " SENSING") (intuition_sensing p);
    gauge_line (py "FEELING   ") (py " THINKING") (feeling_thinking p);
    gauge_line (py "PERCEIVING") (py " JUDGING") (perceiving_judging p) ].

Definition basic_information_section (demo : Demographics) : list pystr :=
  [ py "BASIC INFORMATION"; rule;
    py "AGE:           " ++ age demo;
    py "OCCUPATION:    " ++ occupation demo;
    py "STATUS:        " ++ status demo;
    py "LOCATION:      " ++ location demo;
    [] ].

Definition personality_section (p : Personality) : list pystr :=
  [ py "PERSONALITY TRAITS"; rule ] ++ gauge_lines p ++ [ [] ]
  ++ (if nonempty (characteristics p)
      then py "CHARACTERISTICS:"
           :: map (fun c => BULLET ++ py " " ++ c) (characteristics p)
           ++ [ [] ]
      else []).

Definition behaviour_section (behaviors : list pystr) : list pystr :=
  [ py "BEHAVIOUR & HABITS"; rule ]
  ++ flat_map
       (fun behavior =>
          (BULLET ++ py " " ++ behavior)
          :: (if contains behavior (py "r/")
              then
                let subreddit :=
                  nth 0 (split (nth 1 (split behavior (py "r/")) [])
                               (py " ")) [] in
                [ py "  Citation: Active in r/" ++ subreddit
                  ++ py " subreddit" ]
              else []))
       behaviors
  ++ [ [] ].

Definition frustrations_section (persona : Persona) : list pystr :=
  [ py "FRUSTRATIONS"; rule ]
  ++ flat_map
       (fun frustration =>
          (BULLET ++ py " " ++ frustration)
          :: match raw_posts persona with
             | [] => []
             | post :: _ => [ py "  Citation: Post ID " ++ post_id post ]
             end)
       (frustrations persona)
  ++ [ [] ].

Definition goals_section (persona : Persona) : list pystr :=
  [ py "GOALS & NEEDS"; rule ]
  ++ flat_map
       (fun goal =>
          (BULLET ++ py " " ++ goal)
          :: match raw_comments persona with
             | [] => []
             | comment :: _ =>
                 [ py "  Citation: Comment ID " ++ comment_id comment ]
             end)
       (goals persona)
  ++ [ [] ].

(** The loop over [raw_posts] of the quote section: the state is the pair
    [(quote, citation)], left as it is when no post qualifies. *)
Fixpoint post_quote (posts : list Post) (state : pystr * pystr)
  : pystr * pystr :=
  match posts with
  | [] => state
  | post :: rest =>
      if truthy (post_selftext post) && (50 <? len (post_selftext post))
      then (take 150 (post_selftext post) ++ py "...",
            py "Post: " ++ post_title post ++ py " (ID: " ++ post_id post
            ++ py ")")
      else post_quote rest state
  end.

(** The loop over [raw_comments]. *)
Fixpoint comment_quote (comments : list Comment) (state : pystr * pystr)
  : pystr * pystr :=
  match comments with
  | [] => state
  | comment :: rest =>
      if truthy (comment_body comment) && (30 <? len (comment_body comment))
      then (take 150 (comment_body comment) ++ py "...",
            py "Comment ID: " ++ comment_id comment)
      else comment_quote rest state
  end.

(** The quote and its citation, [("", "")] when nothing qualifies. *)
Definition find_quote (persona : Persona) : pystr * pystr :=
  let state := post_quote (raw_posts persona) ([], []) in
  if negb (truthy (fst state))
  then comment_quote (raw_comments persona) state
  else state.

Definition quote_section (persona : Persona) : list pystr :=
  if nonempty (raw_posts persona) || nonempty (raw_comments persona)
  then
    [ py "REPRESENTATIVE QUOTE"; rule ]
    ++ (let state := find_quote persona in
        if truthy (fst state)
        then [ QUOTE_MARK ++ fst state ++ QUOTE_MARK;
               py "Source: " ++ snd state ]
        else [])
  else [].

Section Report.

(** [str.upper] and [str.title] of the interpreter. *)
Variable upper : pystr -> pystr.
Variable title : pystr -> pystr.

Definition header_section (persona : Persona) : list pystr :=
  [ banner; py "USER PERSONA: " ++ upper (username persona); banner; [] ].

Definition motivations_section (motivations : Dict.dict Z) : list pystr :=
  [ py "MOTIVATIONS"; rule ]
  ++ flat_map
       (fun entry =>
          let motivation := fst entry in
          let score := snd entry in
          if 20 <? score
          then
            let bar_length := score / 10 in
            let motivation_name := title (replace_char 95%N 32%N motivation) in
            [ ljust 15 motivation_name ++ py " "
              ++ repeat_str FULL_BLOCK bar_length
              ++ repeat_str LIGHT_SHADE (10 - bar_length)
              ++ py " (" ++ PyStr.of_int score ++ py "%)" ]
          else [])
       (Dict.items motivations)
  ++ [ [] ].

(** The lines of the report; [rendered_at] is
    [datetime.now().strftime('%Y-%m-%d %H:%M:%S')]. *)
Definition report_lines (rendered_at : pystr) (persona : Persona)
  : list pystr :=
  header_section persona
  ++ basic_information_section (demographics persona)
  ++ personality_section (personality persona)
  ++ motivations_section (motivations persona)
  ++ behaviour_section (behaviors persona)
  ++ frustrations_section persona
  ++ goals_section persona
  ++ quote_section persona
  ++ [ []; banner;
       py "Analysis completed on " ++ rendered_at;
       py "Based on " ++ PyStr.of_int (total_posts persona) ++ py " posts and "
       ++ PyStr.of_int (total_comments persona) ++ py " comments";
       banner ].


End Report.

(* ================================================================== *)
(** ** Vocabulary of the properties *)

(** The iteration order of a set of strings is some enumeration of its
    distinct elements. *)
Definition set_order (set_list : list pystr -> list pystr) : Prop :=
  forall xs, Permutation (set_list xs) (nodup (list_eq_dec N.eq_dec) xs).

(** Two set orders an interpreter process may have. *)
Definition set_list_forward (xs : list pystr) : list pystr :=
  nodup (list_eq_dec N.eq_dec) xs.
Definition set_list_backward (xs : list pystr) : list pystr :=
  rev (nodup (list_eq_dec N.eq_dec) xs).

(** The fields of a persona other than the analysis timestamp and the
    frustration and goal lists. *)
Definition same_core (p q : Persona) : Prop :=
  username p = username q /\ profile_url p = profile_url q
  /\ total_posts p = total_posts q /\ total_comments p = total_comments q
  /\ demographics p = demographics q /\ personality p = personality q
  /\ motivations p = motivations q /\ behaviors p = behaviors q
  /\ raw_posts p = raw_posts q /\ raw_comments p = raw_comments q.

(** All fields but the analysis timestamp agree, element order included. *)
Definition same_but_timestamp (p q : Persona) : Prop :=
  same_core p q
  /\ frustrations p = frustrations q /\ goals p = goals q.

(** All fields but the analysis timestamp agree, the frustration and goal
    lists up to the order of their elements. *)
Definition same_up_to_set_order (p q : Persona) : Prop :=
  same_core p q
  /\ Permutation (frustrations p) (frustrations q)
  /\ Permutation (goals p) (goals q).

(** Two runs on the same input agree but for the timestamp. *)
Definition runs_agree (lower : pystr -> pystr)
  (set_list1 set_list2 : list pystr -> list pystr) (now1 now2 user : pystr)
  (posts : list Post) (comments : list Comment) : Prop :=
  exists p q,
    generate_persona lower set_list1 now1 user posts comments = Some p
    /\ generate_persona lower set_list2 now2 user posts comments = Some q
    /\ same_but_timestamp p q.

(** The non-empty subreddit names of the posts, then of the comments, in
    the order they are met. *)
Definition seen_subreddits (posts : list Post) (comments : list Comment)
  : list pystr :=
  filter truthy (map post_subreddit posts ++ map comment_subreddit comments).

(** The distinct names of a sequence, in the order of their first
    occurrence. *)
Definition first_seen (names : list pystr) : list pystr :=
  fold_left
    (fun seen name => if existsb (PyStr.eqb name) seen then seen
                      else seen ++ [name])
    names [].

(** How often a name occurs in a sequence. *)
Definition occurrences (name : pystr) (names : list pystr) : Z :=
  Z.of_nat (count_occ (list_eq_dec N.eq_dec) names name).

Definition has_count (c : Z) (entry : pystr * Z) : bool := snd entry =? c.

(** The frequency table of a sequence of names: one entry per distinct
    name, in first-occurrence order. *)
Definition counts_of (names : list pystr) : Dict.dict Z :=
  map (fun name => (name, occurrences name names)) (first_seen names).

(** [a] does not rank below [b]. *)
Definition ge_count (a b : pystr * Z) : Prop := snd a >= snd b.

(** The neutral persona: nothing is known and nothing was found. *)
Definition neutral (p : Persona) : Prop :=
  age (demographics p) = py "Unknown"
  /\ occupation (demographics p) = py "Unknown"
  /\ status (demographics p) = py "Unknown"
  /\ location (demographics p) = py "Unknown"
  /\ introvert_extrovert (personality p) = 50
  /\ intuition_sensing (personality p) = 50
  /\ feeling_thinking (personality p) = 50
  /\ perceiving_judging (personality p) = 50
  /\ characteristics (personality p) = []
  /\ behaviors p = []
  /\ frustrations p = []
  /\ goals p = [].

(** The scores of the data model: every axis in [0, 100]. *)
Definition axis_in_range (score : Z) : Prop := 0 <= score <= 100.

Definition scores_in_range (p : Personality) : Prop :=
  axis_in_range (introvert_extrovert p)
  /\ axis_in_range (intuition_sensing p)
  /\ axis_in_range (feeling_thinking p)
  /\ axis_in_range (perceiving_judging p).

(** A bar of [filled] full blocks followed by [track] light shades. *)
Definition bar (filled track : nat) : pystr :=
  repeat 9608%N filled ++ repeat 9617%N track.

(** The glyph counts of a gauge. *)
Definition filled (score : Z) : nat := Z.to_nat (10 - score / 10).
Definition track (score : Z) : nat := Z.to_nat (score / 10).

(** A gauge line as the specification words it. *)
Definition gauge_spec (left_label right_label : pystr) (score : Z) : pystr :=
  left_label ++ bar (filled score) (track score) ++ right_label.

Definition post_qualifies (post : Post) : bool :=
  50 <? len (post_selftext post).
Definition comment_qualifies (comment : Comment) : bool :=
  30 <? len (comment_body comment).

Definition quoted (body : pystr) : pystr :=
  QUOTE_MARK ++ take 150 body ++ py "..." ++ QUOTE_MARK.

(** The quote section with [heading] as what is rendered when no post and
    no comment qualifies. *)
Definition quote_section_with (heading : list pystr) (persona : Persona)
  : list pystr :=
  match find post_qualifies (raw_posts persona) with
  | Some post =>
      [ py "REPRESENTATIVE QUOTE"; rule; quoted (post_selftext post);
        py "Source: Post: " ++ post_title post ++ py " (ID: "
        ++ post_id post ++ py ")" ]
  | None =>
      match find comment_qualifies (raw_comments persona) with
      | Some comment =>
          [ py "REPRESENTATIVE QUOTE"; rule; quoted (comment_body comment);
            py "Source: Comment ID: " ++ comment_id comment ]
      | None => heading
      end
  end.

(** The quote section as the specification words it: omitted entirely when
    neither a post nor a comment qualifies. *)
Definition quote_section_spec (persona : Persona) : list pystr :=
  quote_section_with [] persona.

(** The exact percentage rounded toward zero, as the specification words
    the axis score. *)
Definition percent_spec (pole_b total : Z) : Z :=
  if total =? 0 then 50 else (pole_b * 100) / total.

(** ** Inputs of the examples *)

Definition mk_post (id sub title body : string) : Post :=
  {| post_id := py id; post_title := py title; post_selftext := py body;
     post_subreddit := py sub; post_score := 1; post_created_utc := 0;
     post_url := py "https://reddit.com"; post_num_comments := 0 |}.

Definition mk_comment (id sub body : string) : Comment :=
  {| comment_id := py id; comment_body := py body;
     comment_subreddit := py sub; comment_score := 1;
     comment_created_utc := 0; comment_url := py "https://reddit.com";
     comment_link_title := py "" |}.

(** [n] copies of a word, each followed by a space. *)
Definition words (n : nat) (w : string) : pystr :=
  concat (repeat (py w ++ py " ") n).

Definition text_post (body : pystr) : Post :=
  {| post_id := py "p1"; post_title := py "note"; post_selftext := body;
     post_subreddit := py "misc"; post_score := 1; post_created_utc := 0;
     post_url := py "https://reddit.com"; post_num_comments := 0 |}.

(** Subreddits python (5), golang (5) and rust (2), python met first. *)
Definition tie_posts : list Post :=
  [ mk_post "a1" "python" "t" ""; mk_post "a2" "golang" "t" "";
    mk_post "a3" "rust" "t" ""; mk_post "a4" "golang" "t" "";
    mk_post "a5" "python" "t" ""; mk_post "a6" "golang" "t" "";
    mk_post "a7" "python" "t" "" ].
Definition tie_comments : list Comment :=
  [ mk_comment "c1" "golang" "x"; mk_comment "c2" "rust" "x";
    mk_comment "c3" "python" "x"; mk_comment "c4" "golang" "x";
    mk_comment "c5" "python" "x" ].

(** A post that mentions a slow program and a rude reply. *)
Definition grumpy_posts : list Post :=
  [ mk_post "g1" "apps" "slow and rude" "" ].

Definition example_personality (score : Z) : Personality :=
  {| introvert_extrovert := score; intuition_sensing := 100;
     feeling_thinking := 0; perceiving_judging := 50;
     characteristics := [] |}.

(** A persona with sample posts and comments, none long enough to quote. *)
Definition terse_persona : Persona :=
  {| username := py "alice";
     profile_url := py "https://www.reddit.com/user/alice/";
     analysis_date := py "2025-01-01T00:00:00";
     total_posts := 1; total_comments := 1;
     demographics := {| age := py "Unknown"; occupation := py "Unknown";
                        status := py "Unknown"; location := py "Unknown" |};
     personality := example_personality 30;
     motivations := []; behaviors := []; frustrations := []; goals := [];
     raw_posts := [ mk_post "p1" "misc" "hello" "" ];
     raw_comments := [ mk_comment "c1" "misc" "ok" ] |}.

(** ** Rounding vocabulary *)

(** What a rounding location adds to the truncated mantissa, at most. *)
Definition inexact (l : SpecFloat.location) : Z :=
  match l with loc_Exact => 0 | loc_Inexact _ => 1 end.

(** [within B x]: [x] is zero or a positive finite number of value at most
    [B], with a non-positive exponent. *)
Definition within (B : Z) (x : Binary64.float) : Prop :=
  match x with
  | S754_zero false => True
  | S754_finite false m e => e <= 0 /\ Zpos m <= B * 2 ^ (- e)
  | _ => False
  end.

(* ================================================================== *)
(** ** Profile URLs: [validate_reddit_url] and [extract_username] *)

(** The class [[a-zA-Z0-9_-]]. *)
Definition name_char (c : char) : bool :=
  ((97 <=? c) && (c <=? 122) || (65 <=? c) && (c <=? 90)
   || (48 <=? c) && (c <=? 57) || (c =? 95) || (c =? 45))%N.

(** A literal of a pattern, followed by the rest [k] of the pattern. *)
Definition lit (p : pystr) (k : pystr -> bool) (s : pystr) : bool :=
  startswith p s && k (skipn (length p) s).

(** [(p)?]: the literal is tried first, then its absence. *)
Definition opt (p : pystr) (k : pystr -> bool) (s : pystr) : bool :=
  lit p k s || k s.

(** [[a-zA-Z0-9_-]+]: the longest run is tried first, then shorter ones. *)
Fixpoint name_plus (k : pystr -> bool) (s : pystr) : bool :=
  match s with
  | [] => false
  | c :: rest => name_char c && (name_plus k rest || k rest)
  end.

(** [$]: the end of the string, or the newline that ends it. *)
Definition at_end (s : pystr) : bool :=
  match s with
  | [] => true
  | [c] => (c =? 10)%N
  | _ => false
  end.

(** [bool(re.match(r'^https?://(www\.)?reddit\.com/user/[a-zA-Z0-9_-]+/?$',
    url))]. *)
Definition validate_reddit_url (url : pystr) : bool :=
  lit (py "http")
    (opt (py "s")
       (lit (py "://")
          (opt (py "www.")
             (lit (py "reddit.com/user/")
                (name_plus (opt (py "/") at_end))))))
    url.

(** The longest prefix of code points of a class. *)
Fixpoint take_while (p : char -> bool) (s : pystr) : pystr :=
  match s with
  | [] => []
  | c :: rest => if p c then c :: take_while p rest else []
  end.

(** The pattern [reddit\.com/user/([a-zA-Z0-9_-]+)] tried at the start of
    [s]: the group, when it matches. *)
Definition username_at (s : pystr) : option pystr :=
  if startswith (py "reddit.com/user/") s
  then match take_while name_char (skipn 16 s) with
       | [] => None
       | name => Some name
       end
  else None.

(** [re.search]: the match at the leftmost position that has one. *)
Fixpoint search_username (s : pystr) : option pystr :=
  match username_at s with
  | Some name => Some name
  | None => match s with
            | [] => None
            | _ :: rest => search_username rest
            end
  end.

(** [RedditScraper.extract_username]; [None] is the [ValueError]. *)
Definition extract_username (profile_url : pystr) : option pystr :=
  search_username profile_url.


(** ** Vocabulary of the further properties *)

(** A user name: one or more code points of the class. *)
Definition valid_name (name : pystr) : Prop :=
  name <> [] /\ forallb name_char name = true.

(** [url] is a profile URL of [name]: scheme, optional [www.], host and
    path, the name, an optional slash and an optional final newline. *)
Definition profile_url_of (name url : pystr) : Prop :=
  exists scheme www slash newline,
    url = scheme ++ www ++ py "reddit.com/user/" ++ name ++ slash ++ newline
    /\ (scheme = py "http://" \/ scheme = py "https://")
    /\ (www = [] \/ www = py "www.")
    /\ (slash = [] \/ slash = py "/")
    /\ (newline = [] \/ newline = [10%N]).

(** The sum of the counts of a frequency table. *)
Definition dict_sum (d : Dict.dict Z) : Z := fold_right Z.add 0 (map snd d).

(** A subreddit name without a space and without ["r/"]. *)
Definition plain_name (name : pystr) : bool :=
  negb (contains name (py " ")) && negb (contains name (py "r/")).

(** [x] is a positive finite number of value at least [B], with a
    non-positive exponent. *)
Definition at_least (B : Z) (x : Binary64.float) : Prop :=
  match x with
  | S754_finite false m e => e <= 0 /\ B * 2 ^ (- e) <= Zpos m
  | _ => False
  end.

(** A well-formed profile URL and a user name, for the examples. *)
Definition bob_url : pystr := py "https://www.reddit.com/user/bob_42/".
Definition bob : pystr := py "bob_42".


(* ================================================================== *)
(** * Properties *)

(** ** Strings *)

Lemma eqb_eq a b : PyStr.eqb a b = true <-> a = b.
Proof.
  unfold PyStr.eqb. destruct (list_eq_dec N.eq_dec a b); split; congruence.
Qed.

Lemma eqb_refl a : PyStr.eqb a a = true.
Proof. apply eqb_eq. reflexivity. Qed.

Lemma eqb_neq a b : PyStr.eqb a b = false <-> a <> b.
Proof.
  unfold PyStr.eqb. destruct (list_eq_dec N.eq_dec a b); split; congruence.
Qed.

Lemma count_nonneg text kw : 0 <= count text kw.
Proof. unfold count. lia. Qed.

Lemma sum_counts_nonneg text kws : 0 <= sum_counts text kws.
Proof.
  unfold sum_counts.
  assert (H : forall l acc, 0 <= acc ->
              0 <= fold_left Z.add (map (count text) l) acc).
  { induction l as [|k l IH]; intros acc Hacc; simpl; [assumption|].
    apply IH. pose proof (count_nonneg text k). lia. }
  apply H. lia.
Qed.

(** ** Binary64 rounding never exceeds a representable bound *)

Module Binary64Facts.
Import Binary64.

Lemma loc_of_record_of_loc m l :
  loc_of_shr_record (shr_record_of_loc m l) = l.
Proof. destruct l as [|[]]; reflexivity. Qed.

Lemma shr_m_record_of_loc m l : shr_m (shr_record_of_loc m l) = m.
Proof. destruct l as [|[]]; reflexivity. Qed.

Lemma round_nearest_even_bounds m l :
  m <= round_nearest_even m l <= m + inexact l.
Proof.
  destruct l as [|[]]; simpl; try lia.
  destruct (Z.even m); lia.
Qed.

Lemma shr_1_m r : 0 <= shr_m r -> shr_m (shr_1 r) = shr_m r / 2.
Proof.
  destruct r as [m r s]; simpl. intros Hm.
  destruct m as [|p|p]; try lia; [reflexivity|].
  destruct p; simpl shr_m.
  - rewrite Pos2Z.inj_xI. apply Z.div_unique with 1; lia.
  - rewrite Pos2Z.inj_xO. apply Z.div_unique with 0; lia.
  - reflexivity.
Qed.

Lemma pow2_xO p : 2 ^ Zpos p~0 = 2 ^ Zpos p * 2 ^ Zpos p.
Proof.
  replace (Zpos p~0) with (Zpos p + Zpos p) by lia.
  apply Z.pow_add_r; lia.
Qed.

Lemma pow2_xI p : 2 ^ Zpos p~1 = 2 * (2 ^ Zpos p * 2 ^ Zpos p).
Proof.
  replace (Zpos p~1) with (1 + (Zpos p + Zpos p)) by lia.
  rewrite !Z.pow_add_r by lia. reflexivity.
Qed.

Lemma iter_shr_m p : forall r,
  0 <= shr_m r ->
  shr_m (iter_pos shr_1 p r) = shr_m r / 2 ^ Zpos p.
Proof.
  induction p as [p IH|p IH|]; intros r Hr; cbn [iter_pos].
  - assert (H1 : 0 <= shr_m (shr_1 r)).
    { rewrite shr_1_m by assumption. apply Z.div_pos; lia. }
    assert (H2 : 0 <= shr_m (iter_pos shr_1 p (shr_1 r))).
    { rewrite IH by assumption. apply Z.div_pos; lia. }
    rewrite IH, IH, shr_1_m by assumption.
    rewrite !Z.div_div by lia.
    f_equal. rewrite pow2_xI. ring.
  - assert (H2 : 0 <= shr_m (iter_pos shr_1 p r)).
    { rewrite IH by assumption. apply Z.div_pos; lia. }
    rewrite IH, IH by assumption.
    rewrite Z.div_div by lia.
    f_equal. rewrite pow2_xO. ring.
  - rewrite shr_1_m by assumption. reflexivity.
Qed.

Lemma shr_1_exact k :
  0 <= k ->
  shr_1 (Build_shr_record (k * 2) false false) = Build_shr_record k false false.
Proof.
  intros Hk. rewrite Z.mul_comm. destruct k as [|q|q]; try lia; reflexivity.
Qed.

Lemma iter_shr_exact p : forall k,
  0 <= k ->
  iter_pos shr_1 p (Build_shr_record (k * 2 ^ Zpos p) false false)
  = Build_shr_record k false false.
Proof.
  induction p as [p IH|p IH|]; intros k Hk; cbn [iter_pos].
  - replace (k * 2 ^ Zpos p~1) with ((k * 2 ^ Zpos p * 2 ^ Zpos p) * 2).
    2:{ rewrite pow2_xI. ring. }
    rewrite shr_1_exact by nia. rewrite IH by nia. apply IH; assumption.
  - replace (k * 2 ^ Zpos p~0) with ((k * 2 ^ Zpos p) * 2 ^ Zpos p).
    2:{ rewrite pow2_xO. ring. }
    rewrite IH by nia. apply IH; assumption.
  - change (2 ^ 1) with 2. apply shr_1_exact; assumption.
Qed.

Lemma digits2_pos_le p : forall k, Zpos p < 2 ^ k -> Zpos (digits2_pos p) <= k.
Proof.
  induction p as [p IH|p IH|]; intros k Hk; simpl digits2_pos.
  - assert (0 < k). { destruct k; try lia; simpl in Hk; lia. }
    rewrite Pos2Z.inj_succ. specialize (IH (k - 1)).
    replace k with (k - 1 + 1) in Hk by lia. rewrite Z.pow_add_r in Hk by lia.
    lia.
  - assert (0 < k). { destruct k; try lia; simpl in Hk; lia. }
    rewrite Pos2Z.inj_succ. specialize (IH (k - 1)).
    replace k with (k - 1 + 1) in Hk by lia. rewrite Z.pow_add_r in Hk by lia.
    lia.
  - destruct k; simpl in Hk; lia.
Qed.

Lemma Zdigits2_le m k : 0 <= m < 2 ^ k -> 0 <= k -> Zdigits2 m <= k.
Proof.
  intros [H0 H1] Hk. destruct m as [|p|p]; simpl; try lia.
  apply digits2_pos_le; assumption.
Qed.

Lemma fexp_eq x : fexp prec emax x = Z.max (x - 53) (-1074).
Proof. reflexivity. Qed.

Lemma shr_fexp_le B mx ex lx mrs e1 :
  0 < B < 2 ^ 52 -> 0 <= mx -> ex <= 0 ->
  mx + inexact lx <= B * 2 ^ (- ex) ->
  shr_fexp prec emax mx ex lx = (mrs, e1) ->
  e1 <= 0 /\ 0 <= shr_m mrs /\
  round_nearest_even (shr_m mrs) (loc_of_shr_record mrs) <= B * 2 ^ (- e1).
Proof.
  intros HB Hmx Hex Hle. unfold shr_fexp, shr.
  assert (Hinex : 0 <= inexact lx <= 1) by (destruct lx; simpl; lia).
  assert (Hpow : 0 < 2 ^ (- ex)) by (apply Z.pow_pos_nonneg; lia).
  assert (Hd : Zdigits2 mx <= 52 - ex).
  { apply Zdigits2_le; [|lia]. split; [assumption|].
    replace (52 - ex) with (52 + - ex) by lia.
    rewrite Z.pow_add_r by lia.
    apply Z.le_lt_trans with (B * 2 ^ (- ex)); [lia|].
    apply Z.mul_lt_mono_pos_r; lia. }
  rewrite fexp_eq.
  destruct (Z.max (Zdigits2 mx + ex - 53) (-1074) - ex) as [|p|p] eqn:En;
    intros E; inversion E; subst mrs e1; clear E.
  - rewrite shr_m_record_of_loc, loc_of_record_of_loc.
    pose proof (round_nearest_even_bounds mx lx). lia.
  - set (e1 := ex + Zpos p). assert (He1 : e1 <= 0) by lia.
    set (N := B * 2 ^ (- e1)).
    assert (Hp : 0 < 2 ^ Zpos p) by (apply Z.pow_pos_nonneg; lia).
    assert (HN : B * 2 ^ (- ex) = N * 2 ^ Zpos p).
    { unfold N. replace (- ex) with (- e1 + Zpos p) by lia.
      rewrite Z.pow_add_r by lia. ring. }
    assert (Hm : shr_m (iter_pos shr_1 p (shr_record_of_loc mx lx))
                 = mx / 2 ^ Zpos p).
    { rewrite iter_shr_m; rewrite shr_m_record_of_loc; [reflexivity|assumption]. }
    split; [assumption|]. split.
    { rewrite Hm. apply Z.div_pos; lia. }
    destruct (Z.lt_ge_cases mx (N * 2 ^ Zpos p)) as [Hlt|Hge].
    + pose proof (round_nearest_even_bounds
                    (shr_m (iter_pos shr_1 p (shr_record_of_loc mx lx)))
                    (loc_of_shr_record
                       (iter_pos shr_1 p (shr_record_of_loc mx lx)))) as Hr.
      assert (mx / 2 ^ Zpos p < N).
      { apply Z.div_lt_upper_bound; lia. }
      assert (Hi : forall l, inexact l <= 1) by (intros []; simpl; lia).
      specialize (Hi (loc_of_shr_record
                       (iter_pos shr_1 p (shr_record_of_loc mx lx)))).
      lia.
    + assert (Hmx' : mx = N * 2 ^ Zpos p) by lia.
      assert (lx = loc_Exact) by (destruct lx; simpl in *; [reflexivity|lia]).
      subst lx. simpl shr_record_of_loc. rewrite Hmx'.
      assert (0 <= N) by (unfold N; apply Z.mul_nonneg_nonneg;
                          [lia|apply Z.pow_nonneg; lia]).
      rewrite iter_shr_exact by assumption. simpl. lia.
  - rewrite shr_m_record_of_loc, loc_of_record_of_loc.
    pose proof (round_nearest_even_bounds mx lx). lia.
Qed.

Lemma binary_round_aux_le B mx ex lx :
  0 < B < 2 ^ 52 -> 0 <= mx -> ex <= 0 ->
  mx + inexact lx <= B * 2 ^ (- ex) ->
  within B (binary_round_aux prec emax false mx ex lx).
Proof.
  intros HB Hmx Hex Hle. unfold binary_round_aux.
  destruct (shr_fexp prec emax mx ex lx) as [mrs1 e1] eqn:E1.
  destruct (shr_fexp_le _ HB Hmx Hex Hle E1) as (He1 & Hm1 & Hr1).
  set (m1 := round_nearest_even (shr_m mrs1) (loc_of_shr_record mrs1)) in *.
  assert (Hm1' : 0 <= m1).
  { pose proof (round_nearest_even_bounds (shr_m mrs1)
                  (loc_of_shr_record mrs1)). fold m1 in H. lia. }
  destruct (shr_fexp prec emax m1 e1 loc_Exact) as [mrs2 e2] eqn:E2.
  assert (Hle2 : m1 + inexact loc_Exact <= B * 2 ^ (- e1)) by (simpl; lia).
  destruct (shr_fexp_le _ HB Hm1' He1 Hle2 E2) as (He2 & Hm2 & Hr2).
  pose proof (round_nearest_even_bounds (shr_m mrs2)
                (loc_of_shr_record mrs2)) as Hb.
  destruct (shr_m mrs2) as [|m|m] eqn:Em.
  - exact I.
  - destruct (Z.leb_spec e2 (emax - prec)) as [_|Hgt].
    + simpl. split; lia.
    + unfold emax, prec in Hgt. lia.
  - lia.
Qed.

Lemma new_location_zero nb : new_location nb 0 = loc_Exact.
Proof.
  unfold new_location, new_location_even, new_location_odd.
  destruct (Z.even nb); reflexivity.
Qed.

Lemma int_div_within p t :
  Zpos p <= Zpos t ->
  within 1 (SFdiv prec emax (S754_finite false p 0) (S754_finite false t 0)).
Proof.
  intros Hpt. unfold SFdiv, SFdiv_core_binary.
  set (e' := Z.min _ _).
  assert (He' : e' <= 0) by (unfold e'; lia).
  set (m' := match 0 - 0 - e' with
             | 0 => Zpos p | Zpos _ => Z.shiftl (Zpos p) (0 - 0 - e')
             | Zneg _ => 0 end).
  assert (Hm' : m' = Zpos p * 2 ^ (- e')).
  { unfold m'. replace (0 - 0 - e') with (- e') by lia.
    destruct (- e') as [|s|s] eqn:Es; try lia.
    apply Z.shiftl_mul_pow2. lia. }
  pose proof (Z_div_mod m' (Zpos t) eq_refl) as Hdiv.
  destruct (Z.div_eucl m' (Zpos t)) as [q r]. destruct Hdiv as [Hq Hr].
  assert (Hpow : 0 < 2 ^ (- e')) by (apply Z.pow_pos_nonneg; lia).
  assert (Hq0 : 0 <= q) by nia.
  assert (Hqle : q <= 2 ^ (- e')) by nia.
  simpl xorb. apply binary_round_aux_le; try assumption.
  - split; [lia|reflexivity].
  - rewrite Z.mul_1_l.
    destruct (Z.eq_dec q (2 ^ (- e'))) as [Heq|Hne].
    + assert (r = 0) by nia. subst r. rewrite new_location_zero. simpl. lia.
    + assert (Hi : forall l, inexact l <= 1) by (intros []; simpl; lia).
      specialize (Hi (new_location (Zpos t) r)). lia.
Qed.

Lemma hundred_eq :
  of_int 100 = S754_finite false 7036874417766400 (-46).
Proof. reflexivity. Qed.

Lemma mul_hundred_within x :
  within 1 x -> within 100 (mul x (of_int 100)).
Proof.
  rewrite hundred_eq.
  destruct x as [[]|[]| |[] m e]; intros Hw;
    try exact I; try (exfalso; exact Hw).
  destruct Hw as [He Hm]. unfold mul, SFmul. cbn [xorb].
  apply binary_round_aux_le.
  - split; [lia|reflexivity].
  - lia.
  - lia.
  - simpl inexact. rewrite Z.add_0_r, Pos2Z.inj_mul.
    replace (- (e + -46)) with (- e + 46) by lia.
    rewrite Z.pow_add_r by lia.
    change (Zpos 7036874417766400) with (100 * 2 ^ 46).
    rewrite Z.mul_1_l in Hm.
    assert (0 < 2 ^ 46) by reflexivity. nia.
Qed.

Lemma to_int_within B x :
  0 <= B -> within B x -> exists z, to_int x = Some z /\ 0 <= z <= B.
Proof.
  intros HB. destruct x as [[]|[]| |[] m e]; intros Hw;
    try (exfalso; exact Hw).
  - exists 0. split; [reflexivity|lia].
  - destruct Hw as [He Hm]. eexists. split; [reflexivity|].
    cbn [cond_Zopp].
    destruct (Z.leb_spec 0 e) as [H0|H0].
    + assert (e = 0) by lia. subst e.
      change (- 0) with 0 in Hm. rewrite Z.pow_0_r in *. lia.
    + assert (0 < 2 ^ (- e)) by (apply Z.pow_pos_nonneg; lia). split.
      * apply Z.div_pos; lia.
      * apply Z.div_le_upper_bound; lia.
Qed.

End Binary64Facts.

Lemma percent_of_total b total :
  0 <= b <= total -> 0 < total ->
  exists z, percent_of b total = Some z /\ 0 <= z <= 100.
Proof.
  intros Hb Ht. unfold percent_of, Binary64.int_truediv.
  destruct (Z.eqb_spec total 0) as [|_]; [lia|].
  destruct total as [|t|t]; try lia.
  assert (Hw : within 1
                 (SFdiv Binary64.prec Binary64.emax
                    (Binary64.exact_of_int b) (Binary64.exact_of_int (Zpos t)))).
  { destruct b as [|p|p]; try lia.
    - exact I.
    - apply Binary64Facts.int_div_within. lia. }
  destruct (SFdiv _ _ _ _) as [[]|[]| |[] m e];
    try (exfalso; exact Hw).
  - apply Binary64Facts.to_int_within; [lia|].
    apply Binary64Facts.mul_hundred_within. exact I.
  - apply Binary64Facts.to_int_within; [lia|].
    apply Binary64Facts.mul_hundred_within. exact Hw.
Qed.

(** ** Axis scores *)

Lemma axis_score_total pole_a pole_b text :
  exists z, axis_score pole_a pole_b text = Some z /\ axis_in_range z.
Proof.
  unfold axis_score, axis_in_range.
  pose proof (sum_counts_nonneg text pole_a) as Ha.
  pose proof (sum_counts_nonneg text pole_b) as Hb.
  destruct (Z.eqb_spec (sum_counts text pole_b + sum_counts text pole_a) 0)
    as [|Hne].
  - exists 50. split; [reflexivity|lia].
  - apply percent_of_total; lia.
Qed.

Lemma axis_score_neutral pole_a pole_b text :
  sum_counts text pole_b + sum_counts text pole_a = 0 ->
  axis_score pole_a pole_b text = Some 50.
Proof.
  intros H. unfold axis_score. rewrite H. reflexivity.
Qed.

Section AnalyzerFacts.

Variable lower : pystr -> pystr.
Variable set_list : list pystr -> list pystr.

Lemma analyze_personality_traits_total posts comments :
  exists p, analyze_personality_traits lower posts comments = Some p
            /\ scores_in_range p
            /\ characteristics p
               = characteristics_of (personality_text lower posts comments).
Proof.
  unfold analyze_personality_traits, _analyze_introversion_extroversion,
    _analyze_intuition_sensing, _analyze_feeling_thinking,
    _analyze_perceiving_judging.
  set (text := personality_text lower posts comments).
  destruct (axis_score_total introvert_keywords extrovert_keywords text)
    as (ie & -> & Hie).
  destruct (axis_score_total intuition_keywords sensing_keywords text)
    as (ns & -> & Hns).
  destruct (axis_score_total feeling_keywords thinking_keywords text)
    as (ft & -> & Hft).
  destruct (axis_score_total perceiving_keywords judging_keywords text)
    as (pj & -> & Hpj).
  eexists. split; [reflexivity|]. split; [|reflexivity].
  repeat split; simpl; first [apply Hie|apply Hns|apply Hft|apply Hpj].
Qed.

Lemma generate_persona_total now user posts comments :
  exists p pers,
    analyze_personality_traits lower posts comments = Some pers
    /\ generate_persona lower set_list now user posts comments = Some p
    /\ personality p = pers
    /\ username p = user
    /\ profile_url p = py "https://www.reddit.com/user/" ++ user ++ py "/"
    /\ analysis_date p = now
    /\ total_posts p = llen posts /\ total_comments p = llen comments
    /\ demographics p = analyze_demographics lower posts comments
    /\ motivations p = analyze_motivations lower posts comments
    /\ behaviors p = analyze_behavior_and_habits posts comments
    /\ frustrations p = analyze_frustrations lower set_list posts comments
    /\ goals p = analyze_goals_and_needs lower set_list posts comments
    /\ raw_posts p = firstn 5 posts /\ raw_comments p = firstn 10 comments.
Proof.
  destruct (analyze_personality_traits_total posts comments) as (pers & E & _).
  unfold generate_persona. rewrite E.
  eexists. exists pers. split; [reflexivity|]. split; [reflexivity|].
  simpl. repeat split.
Qed.

Lemma dict_set_forall (P : Z -> Prop) (d : Dict.dict Z) k v :
  Forall (fun e => P (snd e)) d -> P v ->
  Forall (fun e => P (snd e)) (Dict.set d k v).
Proof.
  intros Hd Hv. induction Hd as [|[k' v'] d Hx Hd IH]; simpl.
  - constructor; [assumption|constructor].
  - destruct (PyStr.eqb k' k); constructor; assumption.
Qed.

Lemma analyze_motivations_range posts comments :
  Forall (fun e => 0 <= snd e <= 100)
         (analyze_motivations lower posts comments).
Proof.
  unfold analyze_motivations.
  set (text := content_text lower posts comments).
  assert (H : forall tbl d,
             Forall (fun e => 0 <= snd e <= 100) d ->
             Forall (fun e => 0 <= snd e <= 100)
               (fold_left
                  (fun motivations (entry : pystr * list pystr) =>
                     Dict.set motivations (fst entry)
                       (Z.min (sum_counts text (snd entry) * 10) 100))
                  tbl d)).
  { induction tbl as [|e tbl IH]; intros d Hd; simpl; [assumption|].
    apply IH.
    apply dict_set_forall with (P := fun z => 0 <= z <= 100); [assumption|].
    pose proof (sum_counts_nonneg text (snd e)). lia. }
  apply H. constructor.
Qed.

End AnalyzerFacts.

(** C8: every run of the analyzer returns a persona, and each of its four
    axis scores and each of its motivation scores lies in [0, 100]. *)
Theorem C8_scores_in_range :
  forall (lower : pystr -> pystr) (set_list : list pystr -> list pystr)
         (now user : pystr) (posts : list Post) (comments : list Comment),
  exists p,
    generate_persona lower set_list now user posts comments = Some p
    /\ 0 <= introvert_extrovert (personality p) <= 100
    /\ 0 <= intuition_sensing (personality p) <= 100
    /\ 0 <= feeling_thinking (personality p) <= 100
    /\ 0 <= perceiving_judging (personality p) <= 100
    /\ Forall (fun entry => 0 <= snd entry <= 100) (motivations p)
    /\ Dict.keys (motivations p) = Dict.keys motivation_keywords.
Proof.
  intros lower set_list now user posts comments.
  destruct (generate_persona_total lower set_list now user posts comments)
    as (p & pers & Epers & Ep & Hpers & _ & _ & _ & _ & _ & _ & Hmot & _).
  destruct (analyze_personality_traits_total lower posts comments)
    as (pers' & Epers' & (H1 & H2 & H3 & H4) & _).
  assert (pers' = pers) by congruence. subst pers'.
  exists p. split; [assumption|]. rewrite Hpers, Hmot.
  repeat (split; [assumption|]). split.
  - apply analyze_motivations_range.
  - unfold analyze_motivations.
    generalize (content_text lower posts comments). intros text.
    generalize (fun kws => Z.min (sum_counts text kws * 10) 100).
    intros f. reflexivity.
Qed.

(** C3: on a text with "party" 29 times and "alone" 21 times the
    introvert/extrovert axis function returns 57, whereas the exact
    percentage 29 * 100 / 50 rounded toward zero is 58: the quotient 29/50
    is first rounded to a binary64 number just below 0.58, and the scaled
    value 57.99999999999999 is then truncated.  On a text with "party" 3
    times and "alone" once the function returns 75, and with no keyword at
    all it returns 50. *)
Theorem C3_axis_score_binary64 :
  let text := words 29 "party" ++ words 21 "alone" in
  sum_counts text extrovert_keywords = 29
  /\ sum_counts text introvert_keywords = 21
  /\ _analyze_introversion_extroversion text = Some 57
  /\ percent_spec 29 (29 + 21) = 58
  /\ _analyze_introversion_extroversion
       (words 3 "party" ++ words 1 "alone") = Some 75
  /\ _analyze_introversion_extroversion (py "nothing to see") = Some 50.
Proof.
  vm_compute. repeat split; reflexivity.
Qed.

(** ** The empty input *)

Section EmptyInput.

Variable lower : pystr -> pystr.
Variable set_list : list pystr -> list pystr.
Hypothesis lower_empty : lower [] = [].
Hypothesis set_list_order : set_order set_list.

Lemma set_list_empty : set_list [] = [].
Proof.
  apply Permutation_nil. apply Permutation_sym. apply (set_list_order []).
Qed.

(** C4: on [posts = []] and [comments = []] the analyzer returns a persona
    whose four demographic fields are "Unknown", whose four axis scores are
    50, and whose characteristics, behaviors, frustrations and goals are
    empty. *)
Theorem C4_empty_input (now user : pystr) :
  exists p,
    generate_persona lower set_list now user [] [] = Some p /\ neutral p.
Proof.
  assert (Hd : demographics_text lower [] [] = []) by exact lower_empty.
  assert (Hc : content_text lower [] [] = []) by exact lower_empty.
  destruct (generate_persona_total lower set_list now user [] [])
    as (p & pers & Epers & Ep & Hpers & _ & _ & _ & _ & _ & Hdemo & _
        & Hbeh & Hfr & Hgo & _).
  exists p. split; [assumption|].
  assert (Epers' : pers
                   = {| introvert_extrovert := 50; intuition_sensing := 50;
                        feeling_thinking := 50; perceiving_judging := 50;
                        characteristics := [] |}).
  { assert (E : analyze_personality_traits lower [] []
                = Some {| introvert_extrovert := 50; intuition_sensing := 50;
                          feeling_thinking := 50; perceiving_judging := 50;
                          characteristics := [] |}) by reflexivity.
    congruence. }
  unfold neutral. rewrite Hpers, Hdemo, Hbeh, Hfr, Hgo, Epers'.
  unfold analyze_demographics, analyze_frustrations, analyze_goals_and_needs,
    frustrations_found, goals_found.
  rewrite Hd, Hc.
  change (flat_map _ frustration_patterns) with (@nil pystr).
  change (flat_map _ goal_keywords) with (@nil pystr).
  rewrite set_list_empty.
  repeat split.
Qed.

End EmptyInput.

Lemma set_list_forward_order : set_order set_list_forward.
Proof. intros xs. apply Permutation_refl. Qed.

Lemma set_list_backward_order : set_order set_list_backward.
Proof.
  intros xs. apply Permutation_sym. apply Permutation_rev.
Qed.

Lemma C4_empty_input_witness :
  ascii_lower [] = []
  /\ set_order set_list_forward
  /\ exists p,
       generate_persona ascii_lower set_list_forward
         (py "2025-01-01T00:00:00") (py "alice") [] [] = Some p
       /\ neutral p.
Proof.
  assert (H : set_order set_list_forward).
  { intros xs. apply Permutation_refl. }
  split; [reflexivity|]. split; [exact H|].
  exact (@C4_empty_input ascii_lower set_list_forward eq_refl H
           (py "2025-01-01T00:00:00") (py "alice")).
Defined.

(** ** Frequency counting *)

Lemma eqb_spec a b : reflect (a = b) (PyStr.eqb a b).
Proof.
  destruct (PyStr.eqb a b) eqn:E; constructor.
  - apply eqb_eq. assumption.
  - apply eqb_neq. assumption.
Qed.

Lemma existsb_eqb_In x l : existsb (PyStr.eqb x) l = true <-> In x l.
Proof.
  rewrite existsb_exists. split.
  - intros (y & Hy & E). apply eqb_eq in E. subst. assumption.
  - intros H. exists x. split; [assumption|apply eqb_refl].
Qed.

Lemma first_seen_snoc l x :
  first_seen (l ++ [x])
  = if existsb (PyStr.eqb x) (first_seen l) then first_seen l
    else first_seen l ++ [x].
Proof. unfold first_seen. rewrite fold_left_app. reflexivity. Qed.

Lemma first_seen_In l : forall x, In x (first_seen l) <-> In x l.
Proof.
  induction l as [|y l IH] using rev_ind; intros x; [reflexivity|].
  rewrite first_seen_snoc, in_app_iff.
  destruct (existsb (PyStr.eqb y) (first_seen l)) eqn:E.
  - apply existsb_eqb_In in E. rewrite IH. simpl. split; [tauto|].
    intros [H|[H|[]]]; [assumption|]. subst. apply IH. assumption.
  - rewrite in_app_iff, IH. reflexivity.
Qed.

Lemma first_seen_NoDup l : NoDup (first_seen l).
Proof.
  induction l as [|y l IH] using rev_ind; [constructor|].
  rewrite first_seen_snoc.
  destruct (existsb (PyStr.eqb y) (first_seen l)) eqn:E; [assumption|].
  apply NoDup_app; [assumption|repeat constructor; intros []|].
  intros x Hx [Hy|[]]. subst.
  apply existsb_eqb_In in Hx. congruence.
Qed.

Lemma occurrences_snoc s l x :
  occurrences s (l ++ [x])
  = occurrences s l + (if PyStr.eqb s x then 1 else 0).
Proof.
  unfold occurrences. rewrite count_occ_app. cbn [count_occ].
  destruct (list_eq_dec N.eq_dec x s) as [->|Hne].
  - rewrite eqb_refl, Nat2Z.inj_add. reflexivity.
  - destruct (eqb_spec s x); [congruence|].
    rewrite Nat2Z.inj_add. reflexivity.
Qed.

Lemma occurrences_notin s l : ~ In s l -> occurrences s l = 0.
Proof.
  intros H. unfold occurrences.
  rewrite (proj1 (count_occ_not_In _ _ _) H). reflexivity.
Qed.

Lemma dict_get_map (g : pystr -> Z) keys x :
  Dict.get (map (fun s => (s, g s)) keys) x
  = if existsb (PyStr.eqb x) keys then Some (g x) else None.
Proof.
  induction keys as [|k keys IH]; simpl; [reflexivity|].
  destruct (eqb_spec k x) as [->|Hne].
  - rewrite eqb_refl. reflexivity.
  - destruct (eqb_spec x k); [congruence|]. exact IH.
Qed.

Lemma dict_set_map_in (g : pystr -> Z) keys x v :
  NoDup keys -> In x keys ->
  Dict.set (map (fun s => (s, g s)) keys) x v
  = map (fun s => (s, if PyStr.eqb s x then v else g s)) keys.
Proof.
  intros Hnd. induction Hnd as [|k keys Hk Hnd IH]; intros Hin; [destruct Hin|].
  simpl. destruct (eqb_spec k x) as [->|Hne].
  - f_equal. apply map_ext_in. intros s Hs.
    destruct (eqb_spec s x); [congruence|reflexivity].
  - f_equal. apply IH. destruct Hin; [congruence|assumption].
Qed.

Lemma dict_set_map_notin (g : pystr -> Z) keys x v :
  ~ In x keys ->
  Dict.set (map (fun s => (s, g s)) keys) x v
  = map (fun s => (s, if PyStr.eqb s x then v else g s)) (keys ++ [x]).
Proof.
  induction keys as [|k keys IH]; intros Hin; simpl.
  - rewrite eqb_refl. reflexivity.
  - destruct (eqb_spec k x) as [->|Hne]; [exfalso; apply Hin; left; reflexivity|].
    f_equal. apply IH. intros H. apply Hin. right. assumption.
Qed.

Lemma count_subreddit_step l x :
  truthy x = true -> count_subreddit (counts_of l) x = counts_of (l ++ [x]).
Proof.
  intros Hx. unfold count_subreddit. rewrite Hx.
  unfold counts_of, Dict.get_default.
  rewrite dict_get_map, first_seen_snoc.
  assert (Hext : forall keys,
            map (fun s => (s, if PyStr.eqb s x then occurrences x l + 1
                              else occurrences s l)) keys
            = map (fun s => (s, occurrences s (l ++ [x]))) keys).
  { intros keys. apply map_ext. intros s. rewrite occurrences_snoc.
    destruct (eqb_spec s x) as [->|]; f_equal; lia. }
  destruct (existsb (PyStr.eqb x) (first_seen l)) eqn:E.
  - rewrite dict_set_map_in.
    + apply Hext.
    + apply first_seen_NoDup.
    + apply existsb_eqb_In. assumption.
  - assert (Hnot : ~ In x (first_seen l)).
    { intros H. apply existsb_eqb_In in H. congruence. }
    assert (Hz : occurrences x l = 0).
    { apply occurrences_notin. intros H. apply Hnot.
      apply first_seen_In. assumption. }
    rewrite dict_set_map_notin by assumption.
    rewrite <- Hext, Hz. reflexivity.
Qed.

Lemma fold_count_subreddit l :
  fold_left count_subreddit l [] = counts_of (filter truthy l).
Proof.
  induction l as [|x l IH] using rev_ind; [reflexivity|].
  rewrite fold_left_app, filter_app, IH. simpl.
  destruct (truthy x) eqn:Hx.
  - apply count_subreddit_step. assumption.
  - unfold count_subreddit. rewrite Hx, app_nil_r. reflexivity.
Qed.

Lemma subreddit_counts_spec posts comments :
  subreddit_counts posts comments
  = counts_of (seen_subreddits posts comments).
Proof.
  unfold subreddit_counts, seen_subreddits.
  rewrite <- fold_left_app. apply fold_count_subreddit.
Qed.

(** ** The stable sort by decreasing count *)

Lemma insert_desc_perm x l : Permutation (insert_desc x l) (x :: l).
Proof.
  induction l as [|y l IH]; simpl; [apply Permutation_refl|].
  destruct (snd x <? snd y); [|apply Permutation_refl].
  apply Permutation_trans with (y :: x :: l).
  - apply perm_skip. assumption.
  - apply perm_swap.
Qed.

Lemma sorted_desc_perm l : Permutation (sorted_desc l) l.
Proof.
  induction l as [|x l IH]; simpl; [apply Permutation_refl|].
  apply Permutation_trans with (x :: sorted_desc l).
  - apply insert_desc_perm.
  - apply perm_skip. assumption.
Qed.

Lemma insert_desc_sorted x l :
  StronglySorted ge_count l -> StronglySorted ge_count (insert_desc x l).
Proof.
  intros Hs. induction Hs as [|y l Hs IH Hy]; simpl.
  - constructor; constructor.
  - destruct (Z.ltb_spec (snd x) (snd y)) as [Hlt|Hge].
    + constructor; [assumption|].
      apply Permutation_Forall with (x :: l).
      * apply Permutation_sym. apply insert_desc_perm.
      * constructor; [unfold ge_count; lia|assumption].
    + constructor; [constructor; assumption|].
      constructor; [unfold ge_count; lia|].
      apply Forall_impl with (P := ge_count y); [|assumption].
      unfold ge_count. intros a Ha. lia.
Qed.

Lemma sorted_desc_sorted l : StronglySorted ge_count (sorted_desc l).
Proof.
  induction l as [|x l IH]; simpl; [constructor|].
  apply insert_desc_sorted. assumption.
Qed.

Lemma insert_desc_filter c x l :
  filter (has_count c) (insert_desc x l)
  = if has_count c x then x :: filter (has_count c) l
    else filter (has_count c) l.
Proof.
  induction l as [|y l IH]; simpl; [reflexivity|].
  destruct (Z.ltb_spec (snd x) (snd y)) as [Hlt|Hge]; simpl.
  - rewrite IH. unfold has_count.
    destruct (Z.eqb_spec (snd x) c), (Z.eqb_spec (snd y) c);
      try reflexivity; lia.
  - reflexivity.
Qed.

Lemma sorted_desc_stable c l :
  filter (has_count c) (sorted_desc l) = filter (has_count c) l.
Proof.
  induction l as [|x l IH]; simpl; [reflexivity|].
  rewrite insert_desc_filter, IH. reflexivity.
Qed.

(** ** Behaviors *)

Lemma firstn_incl A n (l : list A) x : In x (firstn n l) -> In x l.
Proof.
  intros H. rewrite <- (firstn_skipn n l). apply in_or_app. left. assumption.
Qed.

Lemma filter_map_filter A (f : A -> pystr) (l : list A) :
  filter truthy (map f (filter (fun a => truthy (f a)) l))
  = filter truthy (map f l).
Proof.
  induction l as [|a l IH]; simpl; [reflexivity|].
  destruct (truthy (f a)) eqn:E; simpl; rewrite ?E, IH; reflexivity.
Qed.

Lemma counts_of_keys names : Dict.keys (counts_of names) = first_seen names.
Proof.
  unfold Dict.keys, counts_of. rewrite map_map. simpl. apply map_id.
Qed.

Lemma top_subreddits_named posts comments :
  Forall (fun entry => fst entry <> []) (top_subreddits posts comments).
Proof.
  apply Forall_forall. intros [name c] He Hempty.
  simpl in Hempty. subst name.
  unfold top_subreddits, Dict.items in He. apply firstn_incl in He.
  apply (Permutation_in _ (sorted_desc_perm _)) in He.
  apply (in_map fst) in He. fold (Dict.keys (subreddit_counts posts comments)) in He.
  rewrite subreddit_counts_spec, counts_of_keys, first_seen_In in He.
  unfold seen_subreddits in He. apply filter_In in He.
  destruct He as [_ He]. discriminate He.
Qed.

(** C5: the frequency table has one entry per non-empty subreddit name, in
    the order the names are first met over the posts and then the comments,
    each with its number of occurrences; the table is sorted by count,
    largest first, entries with equal counts keeping the order of the
    table; the first three entries are selected and each gives one
    "Active in r/..." behavior string.  With counts python 5, golang 5 and
    rust 2, python met first, the selection is python, golang, rust. *)
Theorem C5_top_subreddits :
  forall (posts : list Post) (comments : list Comment),
  let names := seen_subreddits posts comments in
  let counts := subreddit_counts posts comments in
  let ranked := sorted_desc (Dict.items counts) in
  counts = map (fun name => (name, occurrences name names)) (first_seen names)
  /\ Permutation ranked counts
  /\ StronglySorted ge_count ranked
  /\ (forall c, filter (has_count c) ranked = filter (has_count c) counts)
  /\ top_subreddits posts comments = firstn 3 ranked
  /\ analyze_behavior_and_habits posts comments
     = map behavior_desc (top_subreddits posts comments)
       ++ posting_pattern posts ++ commenting_pattern comments
  /\ top_subreddits tie_posts tie_comments
     = [ (py "python", 5); (py "golang", 5); (py "rust", 2) ]
  /\ analyze_behavior_and_habits tie_posts tie_comments
     = [ py "Active in r/python community with 5 posts/comments";
         py "Active in r/golang community with 5 posts/comments";
         py "Active in r/rust community with 2 posts/comments";
         py "Occasional poster - shares content sometimes" ].
Proof.
  intros posts comments names counts ranked.
  split; [apply subreddit_counts_spec|].
  split; [apply sorted_desc_perm|].
  split; [apply sorted_desc_sorted|].
  split; [intros c; apply sorted_desc_stable|].
  repeat split; vm_compute; reflexivity.
Qed.

(** C9: the behaviors are the subreddit strings, at most three, followed by
    at most one posting-frequency string and at most one
    commenting-frequency string: at most five entries. *)
Theorem C9_behaviors_at_most_five :
  forall (posts : list Post) (comments : list Comment),
  analyze_behavior_and_habits posts comments
  = map behavior_desc (top_subreddits posts comments)
    ++ posting_pattern posts ++ commenting_pattern comments
  /\ (length (map behavior_desc (top_subreddits posts comments)) <= 3)%nat
  /\ (length (posting_pattern posts) <= 1)%nat
  /\ (length (commenting_pattern comments) <= 1)%nat
  /\ (length (analyze_behavior_and_habits posts comments) <= 5)%nat.
Proof.
  intros posts comments.
  assert (H3 : (length (map behavior_desc (top_subreddits posts comments))
                <= 3)%nat).
  { rewrite length_map. unfold top_subreddits. apply firstn_le_length. }
  assert (H1 : (length (posting_pattern posts) <= 1)%nat).
  { unfold posting_pattern.
    destruct (20 <? llen posts); [simpl; lia|].
    destruct (5 <? llen posts); simpl; lia. }
  assert (H2 : (length (commenting_pattern comments) <= 1)%nat).
  { unfold commenting_pattern.
    destruct (50 <? llen comments); [simpl; lia|].
    destruct (20 <? llen comments); simpl; lia. }
  split; [reflexivity|]. repeat (split; [assumption|]).
  unfold analyze_behavior_and_habits. rewrite !length_app. lia.
Qed.

(** C10: posts and comments with an empty subreddit field leave the
    frequency table as it is without them; the empty name is never a key of
    the table, and no selected subreddit, hence no "Active in r/..."
    behavior string, has the empty name. *)
Theorem C10_empty_subreddit_ignored :
  forall (posts : list Post) (comments : list Comment),
  subreddit_counts posts comments
  = subreddit_counts
      (filter (fun post => truthy (post_subreddit post)) posts)
      (filter (fun comment => truthy (comment_subreddit comment)) comments)
  /\ ~ In [] (Dict.keys (subreddit_counts posts comments))
  /\ Forall (fun entry => fst entry <> []) (top_subreddits posts comments)
  /\ analyze_behavior_and_habits posts comments
     = map behavior_desc (top_subreddits posts comments)
       ++ posting_pattern posts ++ commenting_pattern comments
  /\ analyze_behavior_and_habits
       [ mk_post "p1" "" "title" "body" ] [ mk_comment "c1" "" "body" ] = [].
Proof.
  intros posts comments. split; [|split; [|split; [|split]]].
  - rewrite !subreddit_counts_spec. unfold seen_subreddits.
    rewrite !filter_app, !filter_map_filter. reflexivity.
  - rewrite subreddit_counts_spec, counts_of_keys, first_seen_In.
    unfold seen_subreddits. intros H. apply filter_In in H.
    destruct H as [_ H]. discriminate H.
  - apply top_subreddits_named.
  - reflexivity.
  - reflexivity.
Qed.

(** ** Motivations *)

(** C6: each of the six motivation categories is scored
    min(10 * n, 100), where n is the sum over the category's keywords of
    their occurrence counts in the combined lower-cased text; three
    occurrences score 30 and fifteen score 100. *)
Theorem C6_motivation_scores :
  forall (lower : pystr -> pystr) (posts : list Post)
         (comments : list Comment),
  let text := content_text lower posts comments in
  let score := fun keywords => Z.min (10 * sum_counts text keywords) 100 in
  analyze_motivations lower posts comments
  = map (fun entry => (fst entry, score (snd entry))) motivation_keywords
  /\ Forall (fun entry =>
               Dict.get (analyze_motivations lower posts comments) (fst entry)
               = Some (score (snd entry)))
            motivation_keywords
  /\ Dict.get (analyze_motivations ascii_lower
                 [text_post (words 3 "cozy")] []) (py "comfort") = Some 30
  /\ Dict.get (analyze_motivations ascii_lower
                 [text_post (words 15 "cozy")] []) (py "comfort") = Some 100.
Proof.
  intros lower posts comments text score.
  assert (E : analyze_motivations lower posts comments
              = map (fun entry => (fst entry, score (snd entry)))
                    motivation_keywords).
  { unfold analyze_motivations. fold text.
    transitivity
      (map (fun entry : pystr * list pystr =>
              (fst entry, Z.min (sum_counts text (snd entry) * 10) 100))
           motivation_keywords).
    - generalize (fun kws => Z.min (sum_counts text kws * 10) 100).
      intros f. reflexivity.
    - apply map_ext. intros e. unfold score. rewrite Z.mul_comm. reflexivity. }
  split; [exact E|]. split.
  - rewrite E. generalize score. intros f.
    repeat constructor.
  - split; vm_compute; reflexivity.
Qed.

(** ** Gauges *)

Lemma repeat_str_single c n : repeat_str [c] n = repeat c (Z.to_nat n).
Proof.
  unfold repeat_str. induction (Z.to_nat n) as [|k IH]; simpl; congruence.
Qed.

Lemma gauge_line_spec l r score :
  gauge_line l r score = gauge_spec l r score.
Proof.
  unfold gauge_line, gauge_spec, bar, filled, track, FULL_BLOCK, LIGHT_SHADE.
  rewrite !repeat_str_single, <- app_assoc. reflexivity.
Qed.

Lemma bar_length score :
  axis_in_range score ->
  (filled score + track score = 10)%nat
  /\ length (bar (filled score) (track score)) = 10%nat.
Proof.
  unfold axis_in_range. intros H.
  assert (Hq : 0 <= score / 10 <= 10).
  { split; [apply Z.div_pos; lia|].
    apply Z.div_le_upper_bound; lia. }
  assert (E : (filled score + track score = 10)%nat).
  { unfold filled, track. lia. }
  split; [exact E|].
  unfold bar. rewrite length_app, !repeat_length. exact E.
Qed.

Section ReportFacts.

Variable upper : pystr -> pystr.
Variable title : pystr -> pystr.

Lemma report_gauge_lines rendered_at persona :
  firstn 4 (skipn 13 (report_lines upper title rendered_at persona))
  = gauge_lines (personality persona).
Proof.
  unfold report_lines, header_section, basic_information_section,
    personality_section, gauge_lines.
  cbn [app skipn firstn]. reflexivity.
Qed.

(** C7: in the report of a persona whose axis scores lie in [0, 100], the
    four gauge lines are each the left pole label, [10 - score//10] filled
    glyphs, [score//10] track glyphs and the right pole label, ten bar
    glyphs in all; score 30 gives 7 filled and 3 track glyphs, score 100
    gives none filled and 10 track glyphs. *)
Theorem C7_gauge_lines (rendered_at : pystr) (persona : Persona) :
  scores_in_range (personality persona) ->
  let p := personality persona in
  firstn 4 (skipn 13 (report_lines upper title rendered_at persona))
  = [ gauge_spec (py "INTROVERT ") (py " EXTROVERT") (introvert_extrovert p);
      gauge_spec (py "INTUITION ") (py " SENSING") (intuition_sensing p);
      gauge_spec (py "FEELING   ") (py " THINKING") (feeling_thinking p);
      gauge_spec (py "PERCEIVING") (py " JUDGING") (perceiving_judging p) ]
  /\ Forall (fun score =>
               (filled score + track score = 10)%nat
               /\ length (bar (filled score) (track score)) = 10%nat)
            [ introvert_extrovert p; intuition_sensing p;
              feeling_thinking p; perceiving_judging p ]
  /\ (filled 30 = 7%nat /\ track 30 = 3%nat)
  /\ (filled 100 = 0%nat /\ track 100 = 10%nat).
Proof.
  intros (H1 & H2 & H3 & H4) p. split.
  - rewrite report_gauge_lines. unfold gauge_lines.
    rewrite !gauge_line_spec. reflexivity.
  - split.
    + repeat constructor; apply bar_length; assumption.
    + split; split; reflexivity.
Qed.

End ReportFacts.

Lemma C7_gauge_lines_witness :
  scores_in_range (personality terse_persona)
  /\ firstn 4 (skipn 13 (report_lines ascii_upper ascii_upper
                           (py "2025-01-01 00:00:00") terse_persona))
     = [ gauge_spec (py "INTROVERT ") (py " EXTROVERT") 30;
         gauge_spec (py "INTUITION ") (py " SENSING") 100;
         gauge_spec (py "FEELING   ") (py " THINKING") 0;
         gauge_spec (py "PERCEIVING") (py " JUDGING") 50 ].
Proof.
  assert (H : scores_in_range (personality terse_persona)).
  { unfold scores_in_range, axis_in_range. simpl. lia. }
  split; [exact H|].
  exact (proj1 (@C7_gauge_lines ascii_upper ascii_upper
                  (py "2025-01-01 00:00:00") terse_persona H)).
Defined.

(** The gauges of a persona returned by the analyzer are ten glyphs long. *)
Corollary analyzer_gauges_ten_glyphs lower set_list now user posts comments :
  exists p,
    generate_persona lower set_list now user posts comments = Some p
    /\ Forall (fun score =>
                 length (bar (filled score) (track score)) = 10%nat)
              [ introvert_extrovert (personality p);
                intuition_sensing (personality p);
                feeling_thinking (personality p);
                perceiving_judging (personality p) ].
Proof.
  destruct (generate_persona_total lower set_list now user posts comments)
    as (p & pers & Epers & Ep & Hpers & _).
  destruct (analyze_personality_traits_total lower posts comments)
    as (pers' & Epers' & (H1 & H2 & H3 & H4) & _).
  assert (pers' = pers) by congruence. subst pers'.
  exists p. split; [assumption|]. rewrite Hpers.
  repeat constructor; apply bar_length; assumption.
Qed.

(** ** The representative quote *)

Lemma long_truthy n s : 0 <= n -> (n <? len s) = true -> truthy s = true.
Proof.
  intros Hn H. destruct s; [|reflexivity].
  apply Z.ltb_lt in H. unfold len in H. simpl in H. lia.
Qed.

Lemma truthy_and_long n s :
  0 <= n -> truthy s && (n <? len s) = (n <? len s).
Proof.
  intros Hn. destruct (n <? len s) eqn:E.
  - rewrite (long_truthy s Hn E). reflexivity.
  - apply andb_false_r.
Qed.

Lemma post_quote_find posts :
  post_quote posts ([], [])
  = match find post_qualifies posts with
    | Some post =>
        (take 150 (post_selftext post) ++ py "...",
         py "Post: " ++ post_title post ++ py " (ID: " ++ post_id post
         ++ py ")")
    | None => ([], [])
    end.
Proof.
  induction posts as [|post posts IH]; simpl; [reflexivity|].
  rewrite truthy_and_long by lia. unfold post_qualifies.
  destruct (50 <? len (post_selftext post)); [reflexivity|exact IH].
Qed.

Lemma comment_quote_find comments :
  comment_quote comments ([], [])
  = match find comment_qualifies comments with
    | Some comment =>
        (take 150 (comment_body comment) ++ py "...",
         py "Comment ID: " ++ comment_id comment)
    | None => ([], [])
    end.
Proof.
  induction comments as [|comment comments IH]; simpl; [reflexivity|].
  rewrite truthy_and_long by lia. unfold comment_qualifies.
  destruct (30 <? len (comment_body comment)); [reflexivity|exact IH].
Qed.

Lemma truthy_quote s : truthy (s ++ py "...") = true.
Proof. destruct s; reflexivity. Qed.

Lemma find_nonempty A (f : A -> bool) l x : find f l = Some x -> nonempty l = true.
Proof. destruct l; [discriminate|reflexivity]. Qed.

(** C1: the quote section quotes the first sample post whose body is
    longer than 50 characters, its first 150 characters followed by "...",
    cited by title and ID; failing that, the first sample comment whose
    body is longer than 30 characters, cut the same way and cited by ID;
    when neither exists, the quote and source lines are left out, the
    heading and its rule are still rendered if the persona has a sample post
    or comment, and nothing at all is rendered if it has none. *)
Theorem C1_quote_section :
  forall persona : Persona,
  quote_section persona
  = quote_section_with
      (if nonempty (raw_posts persona) || nonempty (raw_comments persona)
       then [ py "REPRESENTATIVE QUOTE"; rule ] else [])
      persona.
Proof.
  intros persona. unfold quote_section, quote_section_with, find_quote.
  rewrite post_quote_find.
  destruct (find post_qualifies (raw_posts persona)) as [post|] eqn:Ep.
  - rewrite (find_nonempty _ _ Ep). cbn [orb fst snd].
    rewrite truthy_quote. cbn [negb fst snd]. rewrite truthy_quote.
    unfold quoted. rewrite <- !app_assoc. reflexivity.
  - cbn [fst truthy negb]. rewrite comment_quote_find.
    destruct (find comment_qualifies (raw_comments persona))
      as [comment|] eqn:Ec.
    + rewrite (find_nonempty _ _ Ec), orb_true_r. cbn [fst snd].
      rewrite truthy_quote. unfold quoted. rewrite <- !app_assoc.
      reflexivity.
    + cbn [fst truthy].
      destruct (nonempty (raw_posts persona) || nonempty (raw_comments persona));
        reflexivity.
Qed.

(** The heading of the quote section is rendered for a persona with sample
    posts and comments none of which is long enough, where the
    specification omits the section. *)
Lemma C1_quote_section_counterexample :
  quote_section terse_persona = [ py "REPRESENTATIVE QUOTE"; rule ]
  /\ quote_section_spec terse_persona = []
  /\ quote_section terse_persona <> quote_section_spec terse_persona.
Proof.
  split; [reflexivity|]. split; [reflexivity|].
  vm_compute. discriminate.
Qed.

(** ** Two runs on the same input *)

Lemma same_core_refl lower set_list1 set_list2 now1 now2 user posts comments :
  exists p q,
    generate_persona lower set_list1 now1 user posts comments = Some p
    /\ generate_persona lower set_list2 now2 user posts comments = Some q
    /\ same_core p q
    /\ frustrations p = set_list1 (frustrations_found lower posts comments)
    /\ frustrations q = set_list2 (frustrations_found lower posts comments)
    /\ goals p = set_list1 (goals_found lower posts comments)
    /\ goals q = set_list2 (goals_found lower posts comments).
Proof.
  destruct (generate_persona_total lower set_list1 now1 user posts comments)
    as (p & pers & Epers & Ep & P1 & P2 & P3 & _ & P4 & P5 & P6 & P7 & P8
        & P9 & P10 & P11 & P12).
  destruct (generate_persona_total lower set_list2 now2 user posts comments)
    as (q & pers' & Epers' & Eq & Q1 & Q2 & Q3 & _ & Q4 & Q5 & Q6 & Q7 & Q8
        & Q9 & Q10 & Q11 & Q12).
  assert (pers' = pers) by congruence. subst pers'.
  exists p, q. split; [assumption|]. split; [assumption|].
  split; [|repeat split; assumption].
  unfold same_core. repeat split; congruence.
Qed.

Section TwoRuns.

Variable lower : pystr -> pystr.
Variables set_list1 set_list2 : list pystr -> list pystr.
Hypothesis order1 : set_order set_list1.
Hypothesis order2 : set_order set_list2.

Lemma set_lists_permuted xs : Permutation (set_list1 xs) (set_list2 xs).
Proof.
  apply Permutation_trans with (nodup (list_eq_dec N.eq_dec) xs).
  - apply order1.
  - apply Permutation_sym. apply order2.
Qed.

(** C2: two runs of the analyzer on the same posts and comments return
    personas that agree on every field other than the analysis timestamp,
    the frustration list and the goal list, and whose frustration lists and
    goal lists hold the same sentences, possibly in a different order (the
    order is the iteration order of a set of strings in the interpreter
    process of the run); two runs under the same set order agree on the
    order of both lists too. *)
Theorem C2_runs_agree_up_to_set_order
  (now1 now2 user : pystr) (posts : list Post) (comments : list Comment) :
  (exists p q,
     generate_persona lower set_list1 now1 user posts comments = Some p
     /\ generate_persona lower set_list2 now2 user posts comments = Some q
     /\ same_up_to_set_order p q)
  /\ runs_agree lower set_list1 set_list1 now1 now2 user posts comments.
Proof.
  split.
  - destruct (same_core_refl lower set_list1 set_list2 now1 now2 user
                posts comments)
      as (p & q & Ep & Eq & Hcore & Hf1 & Hf2 & Hg1 & Hg2).
    exists p, q. split; [assumption|]. split; [assumption|].
    split; [assumption|]. rewrite Hf1, Hf2, Hg1, Hg2.
    split; apply set_lists_permuted.
  - destruct (same_core_refl lower set_list1 set_list1 now1 now2 user
                posts comments)
      as (p & q & Ep & Eq & Hcore & Hf1 & Hf2 & Hg1 & Hg2).
    exists p, q. split; [assumption|]. split; [assumption|].
    split; [assumption|]. split; congruence.
Qed.

End TwoRuns.

Lemma C2_runs_agree_up_to_set_order_witness :
  set_order set_list_forward /\ set_order set_list_backward
  /\ exists p q,
       generate_persona ascii_lower set_list_forward
         (py "2025-01-01T00:00:00") (py "alice") grumpy_posts [] = Some p
       /\ generate_persona ascii_lower set_list_backward
            (py "2025-01-02T00:00:00") (py "alice") grumpy_posts [] = Some q
       /\ same_up_to_set_order p q.
Proof.
  assert (H1 : set_order set_list_forward).
  { intros xs. apply Permutation_refl. }
  assert (H2 : set_order set_list_backward).
  { intros xs. apply Permutation_sym. apply Permutation_rev. }
  split; [exact H1|]. split; [exact H2|].
  exact (proj1 (@C2_runs_agree_up_to_set_order ascii_lower
                  set_list_forward set_list_backward H1 H2
                  (py "2025-01-01T00:00:00") (py "2025-01-02T00:00:00")
                  (py "alice") grumpy_posts [])).
Defined.

(** Two runs on one post that mentions a slow program and a rude reply,
    in processes whose sets of strings iterate in opposite orders, return
    the two frustrations in opposite orders. *)
Lemma C2_runs_agree_counterexample :
  set_order set_list_forward /\ set_order set_list_backward
  /\ ~ runs_agree ascii_lower set_list_forward set_list_backward
         (py "2025-01-01T00:00:00") (py "2025-01-01T00:00:00")
         (py "alice") grumpy_posts [].
Proof.
  split; [exact set_list_forward_order|].
  split; [exact set_list_backward_order|].
  intros (p & q & Ep & Eq & _ & Hf & _).
  vm_compute in Ep. vm_compute in Eq.
  injection Ep as <-. injection Eq as <-.
  vm_compute in Hf. discriminate Hf.
Qed.

(** ** Cross-checks of the vocabulary and of the built-ins *)

(** [first_seen] keeps the first occurrence of every name. *)
Lemma first_seen_from names : forall seen,
  fold_left
    (fun seen name => if existsb (PyStr.eqb name) seen then seen
                      else seen ++ [name])
    names seen
  = seen ++ filter (fun name => negb (existsb (PyStr.eqb name) seen))
                   (first_seen names).
Proof.
  induction names as [|z names IH] using rev_ind; intros seen.
  - simpl. rewrite app_nil_r. reflexivity.
  - rewrite first_seen_snoc, fold_left_app, IH. cbn [fold_left].
    rewrite existsb_app.
    destruct (existsb (PyStr.eqb z) seen) eqn:Ez; cbn [orb].
    + destruct (existsb (PyStr.eqb z) (first_seen names)); [reflexivity|].
      rewrite filter_app. cbn [filter]. rewrite Ez. cbn [negb].
      rewrite app_nil_r. reflexivity.
    + destruct (existsb (PyStr.eqb z) (first_seen names)) eqn:Es.
      * assert (Hin : existsb (PyStr.eqb z)
                        (filter (fun name =>
                                   negb (existsb (PyStr.eqb name) seen))
                                (first_seen names)) = true).
        { apply existsb_eqb_In. apply filter_In. split.
          - apply existsb_eqb_In. assumption.
          - rewrite Ez. reflexivity. }
        rewrite Hin. reflexivity.
      * assert (Hin : existsb (PyStr.eqb z)
                        (filter (fun name =>
                                   negb (existsb (PyStr.eqb name) seen))
                                (first_seen names)) = false).
        { destruct (existsb _ (filter _ _)) eqn:E; [|reflexivity].
          apply existsb_eqb_In, filter_In in E. destruct E as [E _].
          apply existsb_eqb_In in E. congruence. }
        rewrite Hin, filter_app. cbn [filter]. rewrite Ez. cbn [negb].
        rewrite app_assoc. reflexivity.
Qed.

Lemma first_seen_cons name names :
  first_seen (name :: names)
  = name :: filter (fun other => negb (PyStr.eqb other name))
                   (first_seen names).
Proof.
  unfold first_seen at 1. cbn [fold_left existsb app].
  rewrite first_seen_from. cbn [app]. f_equal.
  apply filter_ext. intros other. cbn [existsb]. rewrite orb_false_r.
  reflexivity.
Qed.

(** Under the guard ['r/' in behavior], [behavior.split('r/')] has a second
    element. *)
Lemma split_from_nonempty text : forall skip acc sep,
  (1 <= length (split_from skip acc text sep))%nat.
Proof.
  induction text as [|c text IH]; intros skip acc sep; simpl; [lia|].
  destruct skip; [|apply IH].
  destruct (startswith sep (c :: text)); [simpl; lia|apply IH].
Qed.

Lemma split_two_parts text sep :
  sep <> [] -> contains text sep = true ->
  (2 <= length (split text sep))%nat.
Proof.
  intros Hsep. unfold split. generalize (@nil char) as acc.
  induction text as [|c text IH]; intros acc H.
  - destruct sep; [congruence|discriminate H].
  - cbn [contains] in H. cbn [split_from].
    destruct (startswith sep (c :: text)).
    + pose proof (split_from_nonempty text (Nat.pred (length sep)) [] sep).
      simpl. lia.
    + apply IH. exact H.
Qed.

(** The quotient 1/3 and the product 0.29 * 100 are the binary64 numbers
    0x1.5555555555555p-2 and 28.999999999999996. *)
Example third_binary64 :
  Binary64.int_truediv 1 3 = Some (S754_finite false 6004799503160661 (-54)).
Proof. reflexivity. Qed.

Example twenty_nine_percent : percent_of 29 100 = Some 28.
Proof. reflexivity. Qed.

Example three_quarters : percent_of 3 4 = Some 75.
Proof. reflexivity. Qed.

(* ================================================================== *)
(** * Further properties *)

(** ** Profile URLs *)

Lemma startswith_app p s : startswith p (p ++ s) = true.
Proof.
  induction p as [|c p IH]; simpl; [reflexivity|].
  rewrite N.eqb_refl. exact IH.
Qed.

Lemma startswith_split p : forall s,
  startswith p s = true -> s = p ++ skipn (length p) s.
Proof.
  induction p as [|c p IH]; intros s H; [reflexivity|].
  destruct s as [|d s]; [discriminate H|].
  simpl in H. apply andb_true_iff in H. destruct H as [Hc Hp].
  apply N.eqb_eq in Hc. subst d. simpl. f_equal. apply IH. exact Hp.
Qed.

Lemma skipn_app_exact (p s : pystr) : skipn (length p) (p ++ s) = s.
Proof. induction p as [|c p IH]; simpl; [reflexivity|exact IH]. Qed.

Lemma lit_app p k s : lit p k (p ++ s) = k s.
Proof. unfold lit. rewrite startswith_app, skipn_app_exact. reflexivity. Qed.

Lemma lit_true p k s :
  lit p k s = true -> exists rest, s = p ++ rest /\ k rest = true.
Proof.
  unfold lit. intros H. apply andb_true_iff in H. destruct H as [Hp Hk].
  exists (skipn (length p) s). split; [apply startswith_split|]; assumption.
Qed.

Lemma opt_true p k s :
  opt p k s = true ->
  exists q rest, s = q ++ rest /\ (q = [] \/ q = p) /\ k rest = true.
Proof.
  unfold opt. intros H. apply orb_true_iff in H. destruct H as [H|H].
  - apply lit_true in H. destruct H as (rest & -> & Hk).
    exists p, rest. repeat split; [right; reflexivity|assumption].
  - exists [], s. repeat split; [left; reflexivity|assumption].
Qed.

Lemma name_plus_true k : forall s,
  name_plus k s = true ->
  exists name rest, s = name ++ rest /\ valid_name name /\ k rest = true.
Proof.
  induction s as [|c s IH]; intros H; [discriminate H|].
  simpl in H. apply andb_true_iff in H. destruct H as [Hc H].
  apply orb_true_iff in H. destruct H as [H|H].
  - destruct (IH H) as (name & rest & -> & (Hne & Hall) & Hk).
    exists (c :: name), rest. split; [reflexivity|]. split; [|assumption].
    split; [discriminate|]. simpl. rewrite Hc. exact Hall.
  - exists [c], s. split; [reflexivity|]. split; [|assumption].
    split; [discriminate|]. simpl. rewrite Hc. reflexivity.
Qed.

Lemma name_plus_app k name rest :
  valid_name name -> k rest = true -> name_plus k (name ++ rest) = true.
Proof.
  intros [Hne Hall] Hk. induction name as [|c name IH]; [congruence|].
  simpl in Hall. apply andb_true_iff in Hall. destruct Hall as [Hc Hall].
  simpl. rewrite Hc. simpl. destruct name as [|d name].
  - simpl. rewrite Hk. apply orb_true_r.
  - rewrite IH; [reflexivity|discriminate|exact Hall].
Qed.

Lemma at_end_true s : at_end s = true -> s = [] \/ s = [10%N].
Proof.
  destruct s as [|c [|d s]]; simpl; intros H.
  - left. reflexivity.
  - apply N.eqb_eq in H. subst c. right. reflexivity.
  - discriminate H.
Qed.

Lemma validate_shape url :
  validate_reddit_url url = true ->
  exists name, valid_name name /\ profile_url_of name url.
Proof.
  unfold validate_reddit_url. intros H.
  apply lit_true in H. destruct H as (r1 & -> & H).
  apply opt_true in H. destruct H as (s & r2 & -> & Hs & H).
  apply lit_true in H. destruct H as (r3 & -> & H).
  apply opt_true in H. destruct H as (www & r4 & -> & Hwww & H).
  apply lit_true in H. destruct H as (r5 & -> & H).
  apply name_plus_true in H. destruct H as (name & r6 & -> & Hname & H).
  apply opt_true in H. destruct H as (slash & r7 & -> & Hslash & H).
  apply at_end_true in H.
  exists name. split; [assumption|].
  exists (py "http" ++ s ++ py "://"), www, slash, r7.
  split; [rewrite <- !app_assoc; reflexivity|].
  split; [destruct Hs as [->| ->]; [left|right]; reflexivity|].
  repeat split; assumption.
Qed.

Lemma opt_absent p k s : k s = true -> opt p k s = true.
Proof. intros H. unfold opt. rewrite H. apply orb_true_r. Qed.

Lemma opt_present p k s : k s = true -> opt p k (p ++ s) = true.
Proof. intros H. unfold opt. rewrite lit_app, H. reflexivity. Qed.

Lemma shape_validate name url :
  valid_name name -> profile_url_of name url -> validate_reddit_url url = true.
Proof.
  intros Hname (scheme & www & slash & newline & -> & Hs & Hw & Hsl & Hnl).
  assert (Hend : opt (py "/") at_end (slash ++ newline) = true).
  { destruct Hsl as [->| ->]; destruct Hnl as [->| ->]; reflexivity. }
  set (tail := name_plus (opt (py "/") at_end)).
  assert (Hhost : lit (py "reddit.com/user/") tail
                    (py "reddit.com/user/" ++ name ++ slash ++ newline)
                  = true).
  { rewrite lit_app. apply name_plus_app; assumption. }
  set (host := lit (py "reddit.com/user/") tail) in *.
  assert (Hwww : opt (py "www.") host
                   (www ++ py "reddit.com/user/" ++ name ++ slash ++ newline)
                 = true).
  { destruct Hw as [->| ->].
    - apply opt_absent. exact Hhost.
    - apply opt_present. exact Hhost. }
  unfold validate_reddit_url. fold tail. fold host.
  set (rest := opt (py "www.") host) in *.
  destruct Hs as [->| ->].
  - change (py "http://") with (py "http" ++ py "://").
    rewrite <- app_assoc, lit_app. apply opt_absent.
    rewrite lit_app. exact Hwww.
  - change (py "https://") with (py "http" ++ py "s" ++ py "://").
    rewrite <- !app_assoc, lit_app. apply opt_present.
    rewrite lit_app. exact Hwww.
Qed.

(** X1: [validate_reddit_url] accepts exactly the strings made of
    [http://] or [https://], an optional [www.], [reddit.com/user/], a
    non-empty name over [a-zA-Z0-9_-], an optional slash and an optional
    final newline. *)
Theorem validate_reddit_url_accepts :
  forall url : pystr,
  validate_reddit_url url = true
  <-> exists name, valid_name name /\ profile_url_of name url.
Proof.
  intros url. split.
  - apply validate_shape.
  - intros (name & Hname & Hshape). exact (shape_validate Hname Hshape).
Qed.

Lemma take_while_name name slash newline :
  forallb name_char name = true ->
  slash = [] \/ slash = py "/" -> newline = [] \/ newline = [10%N] ->
  take_while name_char (name ++ slash ++ newline) = name.
Proof.
  intros Hall Hsl Hnl. induction name as [|c name IH].
  - destruct Hsl as [->| ->]; destruct Hnl as [->| ->]; reflexivity.
  - simpl in Hall. apply andb_true_iff in Hall. destruct Hall as [Hc Hall].
    simpl. rewrite Hc. f_equal. apply IH. exact Hall.
Qed.

Lemma search_skip_prefix pre s :
  forallb (fun c => negb (c =? 114)%N) pre = true ->
  search_username (pre ++ s) = search_username s.
Proof.
  induction pre as [|c pre IH]; intros H; [reflexivity|].
  simpl in H. apply andb_true_iff in H. destruct H as [Hc H].
  change ((c :: pre) ++ s) with (c :: pre ++ s).
  cbn [search_username]. unfold username_at at 1.
  change (py "reddit.com/user/") with (114%N :: py "eddit.com/user/").
  cbn [startswith]. rewrite N.eqb_sym.
  apply negb_true_iff in Hc. rewrite Hc. cbn [andb]. apply IH. exact H.
Qed.

Lemma search_at_host name rest :
  take_while name_char rest = name -> name <> [] ->
  search_username (py "reddit.com/user/" ++ rest) = Some name.
Proof.
  intros Htake Hne.
  assert (E : username_at (py "reddit.com/user/" ++ rest) = Some name).
  { unfold username_at. rewrite startswith_app.
    change 16%nat with (length (py "reddit.com/user/")).
    rewrite skipn_app_exact, Htake.
    destruct name; [congruence|reflexivity]. }
  destruct (py "reddit.com/user/" ++ rest) eqn:Et;
    cbn [search_username]; rewrite E; reflexivity.
Qed.

Lemma extract_of_shape name url :
  valid_name name -> profile_url_of name url ->
  extract_username url = Some name.
Proof.
  intros [Hne Hall] (scheme & www & slash & newline & -> & Hs & Hw & Hsl & Hnl).
  unfold extract_username. rewrite app_assoc.
  rewrite search_skip_prefix.
  - apply search_at_host; [|assumption].
    apply take_while_name; assumption.
  - destruct Hs as [->| ->]; destruct Hw as [->| ->]; reflexivity.
Qed.

(** X2: on every URL that [validate_reddit_url] accepts,
    [extract_username] raises no error and returns the name part of the URL,
    a non-empty string over [a-zA-Z0-9_-]. *)
Theorem extract_username_of_valid_url (url : pystr) :
  validate_reddit_url url = true ->
  exists name,
    extract_username url = Some name
    /\ valid_name name /\ profile_url_of name url.
Proof.
  intros H. apply validate_shape in H. destruct H as (name & Hname & Hshape).
  exists name. split; [|split; assumption].
  apply extract_of_shape; assumption.
Qed.

Lemma extract_username_of_valid_url_witness :
  validate_reddit_url bob_url = true
  /\ exists name,
       extract_username bob_url = Some name
       /\ valid_name name /\ profile_url_of name bob_url.
Proof.
  split; [reflexivity|].
  exact (@extract_username_of_valid_url bob_url eq_refl).
Defined.

Lemma profile_url_shape user :
  profile_url_of user (py "https://www.reddit.com/user/" ++ user ++ py "/").
Proof.
  exists (py "https://"), (py "www."), (py "/"), [].
  split; [rewrite app_nil_r; reflexivity|].
  repeat split; [right|right|right|left]; reflexivity.
Qed.

(** X3: for a user name over [a-zA-Z0-9_-], the profile URL that
    [generate_persona] stores in the persona is accepted by
    [validate_reddit_url], and [extract_username] returns the user name from
    it. *)
Theorem profile_url_round_trip
  (lower : pystr -> pystr) (set_list : list pystr -> list pystr)
  (now user : pystr) (posts : list Post) (comments : list Comment) :
  valid_name user ->
  exists p,
    generate_persona lower set_list now user posts comments = Some p
    /\ validate_reddit_url (profile_url p) = true
    /\ extract_username (profile_url p) = Some user.
Proof.
  intros Huser.
  destruct (generate_persona_total lower set_list now user posts comments)
    as (p & pers & _ & Ep & _ & _ & Hurl & _).
  exists p. split; [assumption|]. rewrite Hurl. split.
  - apply shape_validate with user; [assumption|apply profile_url_shape].
  - apply extract_of_shape; [assumption|apply profile_url_shape].
Qed.

Lemma profile_url_round_trip_witness :
  valid_name bob
  /\ exists p,
       generate_persona ascii_lower set_list_forward
         (py "2025-01-01T00:00:00") bob [] [] = Some p
       /\ validate_reddit_url (profile_url p) = true
       /\ extract_username (profile_url p) = Some bob.
Proof.
  assert (H : valid_name bob).
  { split; [discriminate|reflexivity]. }
  split; [exact H|].
  exact (@profile_url_round_trip ascii_lower set_list_forward
           (py "2025-01-01T00:00:00") bob [] [] H).
Defined.

(** ** Demographics *)

Lemma startswith_prefix a b : forall s,
  startswith (a ++ b) s = true -> startswith a s = true.
Proof.
  induction a as [|c a IH]; intros s H; [destruct s; reflexivity|].
  destruct s as [|d s]; [discriminate H|].
  simpl in *. apply andb_true_iff in H. destruct H as [Hc H].
  rewrite Hc. apply IH. exact H.
Qed.

Lemma startswith_contains kw s :
  startswith kw s = true -> contains s kw = true.
Proof. intros H. destruct s; simpl; rewrite H; reflexivity. Qed.

Lemma contains_prefix a b : forall text,
  contains text (a ++ b) = true -> contains text a = true.
Proof.
  induction text as [|c text IH]; intros H.
  - simpl in H. rewrite orb_false_r in H.
    apply startswith_contains. apply startswith_prefix with b. exact H.
  - cbn [contains] in H. apply orb_true_iff in H. destruct H as [H|H].
    + apply startswith_contains. apply startswith_prefix with b. exact H.
    + cbn [contains]. rewrite (IH H). apply orb_true_r.
Qed.

Lemma contains_tail x kw : forall text,
  contains text (x :: kw) = true -> contains text kw = true.
Proof.
  induction text as [|c text IH]; intros H; [discriminate H|].
  cbn [contains] in H. apply orb_true_iff in H. destruct H as [H|H].
  - simpl in H. apply andb_true_iff in H. destruct H as [_ H].
    cbn [contains]. rewrite (startswith_contains _ _ H). apply orb_true_r.
  - cbn [contains]. rewrite (IH H). apply orb_true_r.
Qed.

Lemma australia_has_us text :
  contains text (py "australia") = true -> contains text (py "us") = true.
Proof.
  intros H.
  change (py "australia") with (97%N :: (py "us" ++ py "tralia")) in H.
  apply contains_tail in H. apply contains_prefix in H. exact H.
Qed.

(** X4: the analyzer never reports the location "Australia": a text that
    contains "australia" contains "us", an earlier keyword of the location
    table; and whenever the text contains "us", inside a longer word too,
    the location is "United States". *)
Theorem location_never_australia :
  forall (lower : pystr -> pystr) (posts : list Post)
         (comments : list Comment),
  location (analyze_demographics lower posts comments) <> py "Australia"
  /\ (contains (demographics_text lower posts comments) (py "us") = false
      \/ location (analyze_demographics lower posts comments)
         = py "United States").
Proof.
  intros lower posts comments. unfold analyze_demographics.
  cbn [location]. set (text := demographics_text lower posts comments).
  pose proof (australia_has_us text) as Haus.
  unfold location_indicators, table. cbn [map fst snd first_match].
  destruct (contains text (py "usa"));
    [split; [vm_compute; discriminate|right; reflexivity]|].
  destruct (contains text (py "america"));
    [split; [vm_compute; discriminate|right; reflexivity]|].
  destruct (contains text (py "us"));
    [split; [vm_compute; discriminate|right; reflexivity]|].
  destruct (contains text (py "australia"));
    [specialize (Haus eq_refl); discriminate Haus|].
  split; [|left; reflexivity].
  destruct (contains text (py "canada")); [vm_compute; discriminate|].
  destruct (contains text (py "uk")); [vm_compute; discriminate|].
  destruct (contains text (py "britain")); [vm_compute; discriminate|].
  destruct (contains text (py "germany")); [vm_compute; discriminate|].
  destruct (contains text (py "france")); [vm_compute; discriminate|].
  destruct (contains text (py "europe")); vm_compute; discriminate.
Qed.

Lemma dating_app_has_dating text :
  contains text (py "dating app") = true -> contains text (py "dating") = true.
Proof.
  intros H. change (py "dating app") with (py "dating" ++ py " app") in H.
  apply contains_prefix in H. exact H.
Qed.

(** X5: the relationship status is "Married" exactly when one of "wife",
    "husband", "married", "spouse" occurs in the text; otherwise
    "In Relationship" exactly when one of "girlfriend", "boyfriend",
    "dating" occurs; otherwise "Single" exactly when "single" occurs, and
    "Unknown" when it does not.  The keyword "dating app" never decides:
    a text that contains it contains "dating". *)
Theorem relationship_status_priority :
  forall (lower : pystr -> pystr) (posts : list Post)
         (comments : list Comment),
  let text := demographics_text lower posts comments in
  let married :=
    any_in text (map py ["wife"; "husband"; "married"; "spouse"]%string) in
  let attached :=
    any_in text (map py ["girlfriend"; "boyfriend"; "dating"]%string) in
  status (analyze_demographics lower posts comments)
  = (if married then py "Married"
     else if attached then py "In Relationship"
     else if contains text (py "single") then py "Single"
     else py "Unknown")
  /\ (status (analyze_demographics lower posts comments) = py "Single"
      <-> married = false /\ attached = false
          /\ contains text (py "single") = true).
Proof.
  intros lower posts comments text married attached.
  assert (E : status (analyze_demographics lower posts comments)
              = (if married then py "Married"
                 else if attached then py "In Relationship"
                 else if contains text (py "single") then py "Single"
                 else py "Unknown")).
  { unfold analyze_demographics. cbn [status]. fold text. fold married.
    fold attached. destruct married; [reflexivity|].
    destruct attached eqn:Ea; [reflexivity|].
    assert (Hd : contains text (py "dating app") = false).
    { destruct (contains text (py "dating app")) eqn:Hd; [|reflexivity].
      apply dating_app_has_dating in Hd.
      unfold attached, any_in in Ea. cbn [map existsb] in Ea.
      rewrite Hd in Ea. rewrite !orb_true_r in Ea. discriminate Ea. }
    unfold any_in. cbn [map existsb]. rewrite Hd.
    rewrite !orb_false_r. reflexivity. }
  split; [exact E|]. rewrite E.
  destruct married, attached, (contains text (py "single"));
    (split; [intros H; try (vm_compute in H; discriminate H);
             repeat split; reflexivity
            |intros (H1 & H2 & H3); try discriminate; reflexivity]).
Qed.

Lemma first_match_find tbl text default :
  first_match tbl text default
  = match find (fun entry => contains text (fst entry)) tbl with
    | Some entry => snd entry
    | None => default
    end.
Proof.
  induction tbl as [|[keyword value] tbl IH]; simpl; [reflexivity|].
  destruct (contains text keyword); [reflexivity|exact IH].
Qed.

Lemma any_in_keys text (tbl : list (pystr * pystr)) :
  any_in text (map fst tbl)
  = existsb (fun entry => contains text (fst entry)) tbl.
Proof.
  unfold any_in. induction tbl as [|e tbl IH]; simpl; [reflexivity|].
  rewrite IH. reflexivity.
Qed.

Lemma first_match_default tbl text default :
  Forall (fun entry => snd entry <> default) tbl ->
  (first_match tbl text default = default
   <-> any_in text (map fst tbl) = false).
Proof.
  intros Hv. rewrite first_match_find, any_in_keys.
  destruct (find _ tbl) as [e|] eqn:E.
  - apply find_some in E. destruct E as [Hin Hc]. split.
    + intros H. exfalso. rewrite Forall_forall in Hv.
      exact (Hv e Hin H).
    + intros H. exfalso.
      assert (Ht : existsb (fun entry => contains text (fst entry)) tbl
                   = true).
      { apply existsb_exists. exists e. split; assumption. }
      congruence.
  - split; [|reflexivity]. intros _.
    destruct (existsb _ tbl) eqn:Ex; [|reflexivity].
    apply existsb_exists in Ex. destruct Ex as (e & Hin & Hc).
    pose proof (find_none _ _ E e Hin) as Hn. simpl in Hn. congruence.
Qed.

Lemma table_values_known (tbl : list (pystr * pystr)) :
  forallb (fun entry => negb (PyStr.eqb (snd entry) (py "Unknown"))) tbl
  = true ->
  Forall (fun entry => snd entry <> py "Unknown") tbl.
Proof.
  intros H. rewrite forallb_forall in H. apply Forall_forall.
  intros e Hin Heq. specialize (H e Hin).
  apply negb_true_iff, eqb_neq in H. exact (H Heq).
Qed.

(** X6: age, occupation and location are each the value of the first entry
    of their keyword table, in source order, whose keyword occurs in the
    text, and each is "Unknown" exactly when no keyword of its table
    occurs. *)
Theorem demographics_first_match :
  forall (lower : pystr -> pystr) (posts : list Post)
         (comments : list Comment),
  let text := demographics_text lower posts comments in
  let d := analyze_demographics lower posts comments in
  let pick := fun tbl =>
    match find (fun entry => contains text (fst entry)) tbl with
    | Some entry => snd entry
    | None => py "Unknown"
    end in
  age d = pick age_indicators
  /\ occupation d = pick occupation_keywords
  /\ location d = pick location_indicators
  /\ (age d = py "Unknown"
      <-> any_in text (map fst age_indicators) = false)
  /\ (occupation d = py "Unknown"
      <-> any_in text (map fst occupation_keywords) = false)
  /\ (location d = py "Unknown"
      <-> any_in text (map fst location_indicators) = false).
Proof.
  intros lower posts comments text d pick.
  unfold d, analyze_demographics. cbn [age occupation location]. fold text.
  repeat split; try apply first_match_find;
    try (apply first_match_default; apply table_values_known; reflexivity);
    try (apply (first_match_default _ text);
         apply table_values_known; reflexivity).
Qed.

(** ** Characteristics, frustrations and goals *)

Lemma NoDup_by_nodup (l : list pystr) :
  nodup (list_eq_dec N.eq_dec) l = l -> NoDup l.
Proof. intros H. rewrite <- H. apply NoDup_nodup. Qed.

Ltac member_case :=
  rewrite <- existsb_eqb_In; vm_compute; split; intros H;
  first [reflexivity | discriminate H].

Lemma characteristics_of_facts text :
  let cs := characteristics_of text in
  NoDup cs /\ (length cs <= 4)%nat
  /\ (In (py "Helpful") cs <-> 5 < sum_counts text helpful_keywords)
  /\ (In (py "Enthusiastic") cs <-> 10 < sum_counts text enthusiasm_keywords)
  /\ (In (py "Analytical") cs <-> 3 < sum_counts text analytical_keywords)
  /\ (In (py "Creative") cs <-> 3 < sum_counts text creative_keywords).
Proof.
  unfold characteristics_of.
  rewrite <- !Z.ltb_lt.
  destruct (5 <? sum_counts text helpful_keywords),
    (10 <? sum_counts text enthusiasm_keywords),
    (3 <? sum_counts text analytical_keywords),
    (3 <? sum_counts text creative_keywords);
    (split; [apply NoDup_by_nodup; reflexivity|]);
    (split; [simpl; lia|]);
    repeat split; try (intros _; reflexivity); try member_case;
    try (rewrite <- existsb_eqb_In; vm_compute; intros H;
         first [reflexivity|discriminate H]);
    try (intros _; apply existsb_eqb_In; reflexivity).
Qed.

(** X7: the characteristic labels of the personality are distinct, at most
    four, and each is present exactly when its keyword count exceeds its
    threshold: "Helpful" above 5, "Enthusiastic" above 10, "Analytical"
    above 3, "Creative" above 3; a count equal to the threshold does not
    give the label. *)
Theorem characteristics_thresholds :
  forall (lower : pystr -> pystr) (posts : list Post)
         (comments : list Comment),
  exists p,
    analyze_personality_traits lower posts comments = Some p
    /\ let text := personality_text lower posts comments in
       let cs := characteristics p in
       NoDup cs /\ (length cs <= 4)%nat
       /\ (In (py "Helpful") cs <-> 5 < sum_counts text helpful_keywords)
       /\ (In (py "Enthusiastic") cs
           <-> 10 < sum_counts text enthusiasm_keywords)
       /\ (In (py "Analytical") cs
           <-> 3 < sum_counts text analytical_keywords)
       /\ (In (py "Creative") cs <-> 3 < sum_counts text creative_keywords).
Proof.
  intros lower posts comments.
  destruct (analyze_personality_traits_total lower posts comments)
    as (p & Ep & _ & Hc).
  exists p. split; [exact Ep|]. cbv zeta. rewrite Hc.
  apply characteristics_of_facts.
Qed.

Lemma first_hit_any keywords text found :
  first_hit keywords text found
  = if any_in text keywords then found else [].
Proof.
  unfold any_in. induction keywords as [|k keywords IH]; simpl; [reflexivity|].
  destruct (contains text k); [reflexivity|exact IH].
Qed.

Lemma frustrations_found_shape lower posts comments :
  let hit := any_in (content_text lower posts comments) in
  frustrations_found lower posts comments
  = (if hit (map py ["slow"; "bug"; "crash"; "error"; "broken"]%string)
     then [py "Technology issues and software problems"] else [])
    ++ (if hit (map py ["waste time"; "too long"; "waiting"; "delay"]%string)
        then [py "Time-wasting processes and delays"] else [])
    ++ (if hit (map py ["confusing"; "unclear"; "hard to find";
                        "missing info"]%string)
        then [py "Lack of clear information or instructions"] else [])
    ++ (if hit (map py ["poor service"; "unhelpful"; "rude";
                        "disappointing"]%string)
        then [py "Poor customer service experiences"] else []).
Proof.
  unfold frustrations_found.
  rewrite (flat_map_ext _ _ (fun entry => first_hit_any _ _ _)).
  generalize (any_in (content_text lower posts comments)). intros hit.
  cbv zeta. unfold frustration_patterns, groups.
  cbn [map flat_map fst snd]. rewrite app_nil_r. reflexivity.
Qed.

Lemma goals_found_shape lower posts comments :
  let hit := any_in (content_text lower posts comments) in
  goals_found lower posts comments
  = (if hit (map py ["lose weight"; "get fit"; "healthy lifestyle";
                     "exercise more"]%string)
     then [py "Maintain a healthy lifestyle and fitness routine"] else [])
    ++ (if hit (map py ["promotion"; "new job"; "career growth";
                        "learn skills"]%string)
        then [py "Advance career and develop professional skills"] else [])
    ++ (if hit (map py ["save money"; "investment"; "financial freedom";
                        "budget"]%string)
        then [py "Achieve financial stability and smart money management"]
        else [])
    ++ (if hit (map py ["learn"; "study"; "course"; "degree";
                        "certification"]%string)
        then [py "Continue learning and skill development"] else [])
    ++ (if hit (map py ["meet people"; "dating"; "friends"; "social"]%string)
        then [py "Build meaningful relationships and social connections"]
        else [])
    ++ (if hit (map py ["travel"; "hobby"; "experience"; "adventure"]%string)
        then [py "Explore new experiences and maintain work-life balance"]
        else []).
Proof.
  unfold goals_found.
  rewrite (flat_map_ext _ _ (fun entry => first_hit_any _ _ _)).
  generalize (any_in (content_text lower posts comments)). intros hit.
  cbv zeta. unfold goal_keywords, groups.
  cbn [map flat_map fst snd]. rewrite app_nil_r. reflexivity.
Qed.

Lemma frustrations_found_facts lower posts comments :
  let hit := any_in (content_text lower posts comments) in
  let found := frustrations_found lower posts comments in
  NoDup found /\ (length found <= 4)%nat
  /\ (In (py "Technology issues and software problems") found
      <-> hit (map py ["slow"; "bug"; "crash"; "error"; "broken"]%string)
          = true)
  /\ (In (py "Time-wasting processes and delays") found
      <-> hit (map py ["waste time"; "too long"; "waiting"; "delay"]%string)
          = true)
  /\ (In (py "Lack of clear information or instructions") found
      <-> hit (map py ["confusing"; "unclear"; "hard to find";
                       "missing info"]%string) = true)
  /\ (In (py "Poor customer service experiences") found
      <-> hit (map py ["poor service"; "unhelpful"; "rude";
                       "disappointing"]%string) = true).
Proof.
  cbv zeta. rewrite frustrations_found_shape. cbv zeta.
  generalize (any_in (content_text lower posts comments)). intros hit.
  destruct (hit (map py ["slow"; "bug"; "crash"; "error"; "broken"]%string)),
    (hit (map py ["waste time"; "too long"; "waiting"; "delay"]%string)),
    (hit (map py ["confusing"; "unclear"; "hard to find";
                  "missing info"]%string)),
    (hit (map py ["poor service"; "unhelpful"; "rude";
                  "disappointing"]%string));
    (split; [apply NoDup_by_nodup; reflexivity|]);
    (split; [simpl; lia|]);
    repeat (split; [member_case|]); member_case.
Qed.

Lemma goals_found_facts lower posts comments :
  let hit := any_in (content_text lower posts comments) in
  let found := goals_found lower posts comments in
  NoDup found /\ (length found <= 6)%nat
  /\ (In (py "Maintain a healthy lifestyle and fitness routine") found
      <-> hit (map py ["lose weight"; "get fit"; "healthy lifestyle";
                       "exercise more"]%string) = true)
  /\ (In (py "Advance career and develop professional skills") found
      <-> hit (map py ["promotion"; "new job"; "career growth";
                       "learn skills"]%string) = true)
  /\ (In (py "Achieve financial stability and smart money management") found
      <-> hit (map py ["save money"; "investment"; "financial freedom";
                       "budget"]%string) = true)
  /\ (In (py "Continue learning and skill development") found
      <-> hit (map py ["learn"; "study"; "course"; "degree";
                       "certification"]%string) = true)
  /\ (In (py "Build meaningful relationships and social connections") found
      <-> hit (map py ["meet people"; "dating"; "friends"; "social"]%string)
          = true)
  /\ (In (py "Explore new experiences and maintain work-life balance") found
      <-> hit (map py ["travel"; "hobby"; "experience"; "adventure"]%string)
          = true).
Proof.
  cbv zeta. rewrite goals_found_shape. cbv zeta.
  generalize (any_in (content_text lower posts comments)). intros hit.
  destruct (hit (map py ["lose weight"; "get fit"; "healthy lifestyle";
                         "exercise more"]%string)),
    (hit (map py ["promotion"; "new job"; "career growth";
                  "learn skills"]%string)),
    (hit (map py ["save money"; "investment"; "financial freedom";
                  "budget"]%string)),
    (hit (map py ["learn"; "study"; "course"; "degree";
                  "certification"]%string)),
    (hit (map py ["meet people"; "dating"; "friends"; "social"]%string)),
    (hit (map py ["travel"; "hobby"; "experience"; "adventure"]%string));
    (split; [apply NoDup_by_nodup; reflexivity|]);
    (split; [simpl; lia|]);
    repeat (split; [member_case|]); member_case.
Qed.

Section SetConversion.

Variable lower : pystr -> pystr.
Variable set_list : list pystr -> list pystr.
Hypothesis set_list_order : set_order set_list.

Lemma set_list_of_distinct found :
  NoDup found ->
  Permutation (set_list found) found
  /\ NoDup (set_list found)
  /\ length (set_list found) = length found
  /\ (forall s, In s (set_list found) <-> In s found).
Proof.
  intros Hnd.
  assert (Hp : Permutation (set_list found) found).
  { rewrite <- (nodup_fixed_point (list_eq_dec N.eq_dec) Hnd) at 2.
    apply set_list_order. }
  split; [exact Hp|]. split.
  - apply Permutation_NoDup with found; [apply Permutation_sym|]; assumption.
  - split; [apply Permutation_length; exact Hp|].
    intros s. split; apply Permutation_in;
      [exact Hp|apply Permutation_sym; exact Hp].
Qed.

(** X8: the frustrations returned by the analyzer are the sentences found,
    in some order, with nothing removed: they are distinct, at most four,
    and the sentence of a category is among them exactly when at least one
    keyword of the category occurs in the text, however many do. *)
Theorem frustrations_one_per_category
  (posts : list Post) (comments : list Comment) :
  let hit := any_in (content_text lower posts comments) in
  let result := analyze_frustrations lower set_list posts comments in
  Permutation result (frustrations_found lower posts comments)
  /\ NoDup result /\ (length result <= 4)%nat
  /\ (In (py "Technology issues and software problems") result
      <-> hit (map py ["slow"; "bug"; "crash"; "error"; "broken"]%string)
          = true)
  /\ (In (py "Time-wasting processes and delays") result
      <-> hit (map py ["waste time"; "too long"; "waiting"; "delay"]%string)
          = true)
  /\ (In (py "Lack of clear information or instructions") result
      <-> hit (map py ["confusing"; "unclear"; "hard to find";
                       "missing info"]%string) = true)
  /\ (In (py "Poor customer service experiences") result
      <-> hit (map py ["poor service"; "unhelpful"; "rude";
                       "disappointing"]%string) = true).
Proof.
  cbv zeta. unfold analyze_frustrations.
  destruct (frustrations_found_facts lower posts comments)
    as (Hnd & Hlen & H1 & H2 & H3 & H4).
  destruct (set_list_of_distinct Hnd) as (Hp & Hnd' & Hl & Hin).
  split; [exact Hp|]. split; [exact Hnd'|]. split; [rewrite Hl; exact Hlen|].
  rewrite !Hin. repeat split; first [apply H1|apply H2|apply H3|apply H4].
Qed.

(** X9: the goals returned by the analyzer are the sentences found, in some
    order, with nothing removed: they are distinct, at most six, and the
    sentence of a category is among them exactly when at least one keyword
    of the category occurs in the text. *)
Theorem goals_one_per_category
  (posts : list Post) (comments : list Comment) :
  let hit := any_in (content_text lower posts comments) in
  let result := analyze_goals_and_needs lower set_list posts comments in
  Permutation result (goals_found lower posts comments)
  /\ NoDup result /\ (length result <= 6)%nat
  /\ (In (py "Maintain a healthy lifestyle and fitness routine") result
      <-> hit (map py ["lose weight"; "get fit"; "healthy lifestyle";
                       "exercise more"]%string) = true)
  /\ (In (py "Advance career and develop professional skills") result
      <-> hit (map py ["promotion"; "new job"; "career growth";
                       "learn skills"]%string) = true)
  /\ (In (py "Achieve financial stability and smart money management") result
      <-> hit (map py ["save money"; "investment"; "financial freedom";
                       "budget"]%string) = true)
  /\ (In (py "Continue learning and skill development") result
      <-> hit (map py ["learn"; "study"; "course"; "degree";
                       "certification"]%string) = true)
  /\ (In (py "Build meaningful relationships and social connections") result
      <-> hit (map py ["meet people"; "dating"; "friends"; "social"]%string)
          = true)
  /\ (In (py "Explore new experiences and maintain work-life balance") result
      <-> hit (map py ["travel"; "hobby"; "experience"; "adventure"]%string)
          = true).
Proof.
  cbv zeta. unfold analyze_goals_and_needs.
  destruct (goals_found_facts lower posts comments)
    as (Hnd & Hlen & H1 & H2 & H3 & H4 & H5 & H6).
  destruct (set_list_of_distinct Hnd) as (Hp & Hnd' & Hl & Hin).
  split; [exact Hp|]. split; [exact Hnd'|]. split; [rewrite Hl; exact Hlen|].
  rewrite !Hin.
  repeat split;
    first [apply H1|apply H2|apply H3|apply H4|apply H5|apply H6].
Qed.

End SetConversion.

Lemma frustrations_one_per_category_witness :
  set_order set_list_backward
  /\ Permutation
       (analyze_frustrations ascii_lower set_list_backward grumpy_posts [])
       (frustrations_found ascii_lower grumpy_posts [])
  /\ NoDup (analyze_frustrations ascii_lower set_list_backward
              grumpy_posts []).
Proof.
  assert (H : set_order set_list_backward).
  { intros xs. apply Permutation_sym. apply Permutation_rev. }
  split; [exact H|].
  pose proof (@frustrations_one_per_category ascii_lower set_list_backward H
                grumpy_posts []) as T.
  cbv zeta in T. split; [exact (proj1 T)|exact (proj1 (proj2 T))].
Defined.

Lemma goals_one_per_category_witness :
  set_order set_list_backward
  /\ Permutation
       (analyze_goals_and_needs ascii_lower set_list_backward
          [text_post (py "learn to travel with friends")] [])
       (goals_found ascii_lower
          [text_post (py "learn to travel with friends")] [])
  /\ NoDup (analyze_goals_and_needs ascii_lower set_list_backward
              [text_post (py "learn to travel with friends")] []).
Proof.
  assert (H : set_order set_list_backward).
  { intros xs. apply Permutation_sym. apply Permutation_rev. }
  split; [exact H|].
  pose proof (@goals_one_per_category ascii_lower set_list_backward H
                [text_post (py "learn to travel with friends")] []) as T.
  cbv zeta in T. split; [exact (proj1 T)|exact (proj1 (proj2 T))].
Defined.

(** ** Subreddit counts *)

Lemma dict_sum_increment d k :
  dict_sum (Dict.set d k (Dict.get_default d k 0 + 1)) = dict_sum d + 1.
Proof.
  unfold dict_sum, Dict.get_default.
  induction d as [|[k' v'] d IH]; simpl; [reflexivity|].
  destruct (PyStr.eqb k' k); simpl; [lia|]. rewrite IH. lia.
Qed.

Lemma dict_sum_fold names : forall d,
  dict_sum (fold_left count_subreddit names d)
  = dict_sum d + llen (filter truthy names).
Proof.
  unfold llen.
  induction names as [|name names IH]; intros d; simpl; [lia|].
  rewrite IH. unfold count_subreddit.
  destruct (truthy name); [rewrite dict_sum_increment; simpl length|]; lia.
Qed.

Lemma occurrences_positive name names :
  In name names -> 1 <= occurrences name names.
Proof.
  intros H. unfold occurrences.
  apply (count_occ_In (list_eq_dec N.eq_dec)) in H. lia.
Qed.

(** X10: the subreddit frequency table has one entry per distinct non-empty
    subreddit name, every count is at least 1, and the counts add up to the
    number of posts and comments that have a non-empty subreddit. *)
Theorem subreddit_counts_add_up :
  forall (posts : list Post) (comments : list Comment),
  let counts := subreddit_counts posts comments in
  dict_sum counts = llen (seen_subreddits posts comments)
  /\ NoDup (Dict.keys counts)
  /\ Forall (fun entry => 1 <= snd entry) counts
  /\ llen (seen_subreddits posts comments) <= llen posts + llen comments.
Proof.
  intros posts comments counts. split; [|split; [|split]].
  - unfold counts, subreddit_counts, seen_subreddits.
    rewrite <- fold_left_app, dict_sum_fold. reflexivity.
  - unfold counts. rewrite subreddit_counts_spec, counts_of_keys.
    apply first_seen_NoDup.
  - unfold counts. rewrite subreddit_counts_spec. unfold counts_of.
    apply Forall_forall. intros e He. apply in_map_iff in He.
    destruct He as (name & <- & Hin). simpl.
    apply occurrences_positive. apply first_seen_In. exact Hin.
  - unfold seen_subreddits, llen.
    pose proof (filter_length_le truthy
                  (map post_subreddit posts ++ map comment_subreddit comments))
      as H.
    rewrite length_app, !length_map in H. lia.
Qed.

(** ** The selected subreddits *)

Lemma sorted_app_ge (l1 l2 : list (pystr * Z)) :
  StronglySorted ge_count (l1 ++ l2) ->
  Forall (fun a => Forall (fun b => snd a >= snd b) l2) l1.
Proof.
  induction l1 as [|a l1 IH]; intros H; [constructor|].
  simpl in H. inversion H as [|? ? Hs Ha]; subst. constructor.
  - apply Forall_app in Ha. exact (proj2 Ha).
  - apply IH. exact Hs.
Qed.

Lemma NoDup_map_perm A B (f : A -> B) (l1 l2 : list A) :
  Permutation l1 l2 -> NoDup (map f l2) -> NoDup (map f l1).
Proof.
  intros Hp Hn. apply Permutation_NoDup with (map f l2); [|exact Hn].
  apply Permutation_sym. apply Permutation_map. exact Hp.
Qed.

Lemma NoDup_firstn A n (l : list A) : NoDup l -> NoDup (firstn n l).
Proof.
  intros H. rewrite <- (firstn_skipn n l) in H.
  exact (NoDup_app_remove_r _ _ H).
Qed.

(** X11: the selected subreddits are distinct entries of the frequency
    table, min(3, number of distinct subreddits) of them, and no subreddit
    left out has a larger count than a selected one. *)
Theorem top_subreddits_dominate :
  forall (posts : list Post) (comments : list Comment),
  let counts := subreddit_counts posts comments in
  let top := top_subreddits posts comments in
  let left_out := skipn 3 (sorted_desc (Dict.items counts)) in
  Permutation (top ++ left_out) counts
  /\ NoDup (map fst top)
  /\ length top = Nat.min 3 (length counts)
  /\ Forall (fun a => Forall (fun b => snd a >= snd b) left_out) top.
Proof.
  intros posts comments counts top left_out.
  unfold top, left_out, top_subreddits, Dict.items. fold counts.
  split; [|split; [|split]].
  - rewrite firstn_skipn. apply sorted_desc_perm.
  - rewrite <- firstn_map. apply NoDup_firstn.
    apply NoDup_map_perm with counts; [apply sorted_desc_perm|].
    unfold counts. fold (Dict.keys (subreddit_counts posts comments)).
    rewrite subreddit_counts_spec, counts_of_keys. apply first_seen_NoDup.
  - rewrite length_firstn.
    rewrite (Permutation_length (sorted_desc_perm counts)). reflexivity.
  - apply sorted_app_ge. rewrite firstn_skipn. apply sorted_desc_sorted.
Qed.

(** ** The citation under a subreddit behavior *)

Lemma contains_app_l a kw s :
  contains s kw = true -> contains (a ++ s) kw = true.
Proof.
  intros H. induction a as [|c a IH]; [exact H|].
  simpl. rewrite IH. apply orb_true_r.
Qed.

Lemma behavior_desc_has_marker entry :
  contains (behavior_desc entry) (py "r/") = true.
Proof.
  unfold behavior_desc.
  change (py "Active in r/") with (py "Active in " ++ py "r/").
  rewrite <- app_assoc. apply contains_app_l.
  apply startswith_contains. apply startswith_app.
Qed.

Lemma split_marker_clean sub tail : forall acc,
  contains sub (py "r/") = false ->
  split_from 0 acc (sub ++ 32%N :: tail) (py "r/")
  = split_from 0 (32%N :: rev sub ++ acc) tail (py "r/").
Proof.
  induction sub as [|c sub IH]; intros acc H.
  - reflexivity.
  - cbn [contains] in H. apply orb_false_iff in H. destruct H as [Hs Hc].
    change ((c :: sub) ++ 32%N :: tail) with (c :: sub ++ 32%N :: tail).
    cbn [split_from].
    assert (Hn : startswith (py "r/") (c :: sub ++ 32%N :: tail) = false).
    { destruct sub as [|d sub].
      - change (py "r/") with [114%N; 47%N]. simpl.
        apply andb_false_r.
      - exact Hs. }
    rewrite Hn, (IH (c :: acc) Hc). cbn [rev]. rewrite <- app_assoc.
    reflexivity.
Qed.

Lemma split_head_extends text sep : forall acc,
  exists u, nth 0 (split_from 0 acc text sep) [] = rev acc ++ u.
Proof.
  induction text as [|c text IH]; intros acc.
  - exists []. simpl. rewrite app_nil_r. reflexivity.
  - cbn [split_from]. destruct (startswith sep (c :: text)).
    + exists []. simpl. rewrite app_nil_r. reflexivity.
    + destruct (IH (c :: acc)) as (u & Hu). exists (c :: u).
      rewrite Hu. cbn [rev]. rewrite <- app_assoc. reflexivity.
Qed.

Lemma split_space_head sub tail : forall acc,
  contains sub (py " ") = false ->
  nth 0 (split_from 0 acc (sub ++ 32%N :: tail) (py " ")) []
  = rev acc ++ sub.
Proof.
  induction sub as [|c sub IH]; intros acc H.
  - simpl. rewrite app_nil_r. reflexivity.
  - cbn [contains] in H. apply orb_false_iff in H. destruct H as [Hs Hc].
    change ((c :: sub) ++ 32%N :: tail) with (c :: sub ++ 32%N :: tail).
    cbn [split_from].
    assert (Hn : startswith (py " ") (c :: sub ++ 32%N :: tail) = false).
    { change (py " ") with [32%N] in *. simpl in *. exact Hs. }
    rewrite Hn, (IH (c :: acc) Hc). cbn [rev]. rewrite <- app_assoc.
    reflexivity.
Qed.

Lemma cited_subreddit entry :
  plain_name (fst entry) = true ->
  nth 0 (split (nth 1 (split (behavior_desc entry) (py "r/")) [])
               (py " ")) []
  = fst entry.
Proof.
  unfold plain_name. intros H. apply andb_true_iff in H.
  destruct H as [Hsp Hrf]. apply negb_true_iff in Hsp, Hrf.
  unfold behavior_desc.
  set (tail := py "community with " ++ PyStr.of_int (snd entry)
               ++ py " posts/comments").
  assert (E : split (py "Active in r/" ++ fst entry ++ py " community with "
                     ++ PyStr.of_int (snd entry) ++ py " posts/comments")
                    (py "r/")
              = py "Active in "
                :: split_from 0 [] (fst entry ++ 32%N :: tail) (py "r/")).
  { reflexivity. }
  rewrite E. cbn [nth]. rewrite (@split_marker_clean (fst entry) tail [] Hrf).
  destruct (@split_head_extends tail (py "r/")
              (32%N :: rev (fst entry) ++ [])) as (u & Hu).
  rewrite Hu. cbn [rev]. rewrite app_nil_r, rev_involutive, <- app_assoc.
  change ([32%N] ++ u) with (32%N :: u). unfold split. rewrite (@split_space_head (fst entry) u [] Hsp). reflexivity.
Qed.

Lemma subreddit_bullets entries :
  forallb (fun entry => plain_name (fst entry)) entries = true ->
  flat_map
    (fun behavior =>
       (BULLET ++ py " " ++ behavior)
       :: (if contains behavior (py "r/")
           then
             [ py "  Citation: Active in r/"
               ++ nth 0 (split (nth 1 (split behavior (py "r/")) [])
                               (py " ")) []
               ++ py " subreddit" ]
           else []))
    (map behavior_desc entries)
  = flat_map
      (fun entry =>
         [ BULLET ++ py " " ++ behavior_desc entry;
           py "  Citation: Active in r/" ++ fst entry ++ py " subreddit" ])
      entries.
Proof.
  induction entries as [|e entries IH]; intros H; [reflexivity|].
  simpl in H. apply andb_true_iff in H. destruct H as [He H].
  cbn [map flat_map]. rewrite (IH H), behavior_desc_has_marker.
  rewrite (cited_subreddit e He). reflexivity.
Qed.

(** X12: when the selected subreddit names contain no space and no "r/",
    the behaviour section of the report of the analyzer's behaviors puts
    under every subreddit bullet a citation that names the same subreddit,
    and puts no citation under the posting and commenting bullets. *)
Theorem behaviour_citations_name_subreddit
  (posts : list Post) (comments : list Comment) :
  forallb (fun entry => plain_name (fst entry)) (top_subreddits posts comments)
  = true ->
  behaviour_section (analyze_behavior_and_habits posts comments)
  = [ py "BEHAVIOUR & HABITS"; rule ]
    ++ flat_map
         (fun entry =>
            [ BULLET ++ py " " ++ behavior_desc entry;
              py "  Citation: Active in r/" ++ fst entry ++ py " subreddit" ])
         (top_subreddits posts comments)
    ++ map (fun behavior => BULLET ++ py " " ++ behavior)
           (posting_pattern posts ++ commenting_pattern comments)
    ++ [ [] ].
Proof.
  intros H. unfold behaviour_section, analyze_behavior_and_habits.
  cbv zeta. rewrite flat_map_app, <- app_assoc. f_equal. f_equal.
  - apply subreddit_bullets. exact H.
  - f_equal. unfold posting_pattern, commenting_pattern.
    destruct (20 <? llen posts), (5 <? llen posts),
      (50 <? llen comments), (20 <? llen comments); reflexivity.
Qed.

Lemma behaviour_citations_name_subreddit_witness :
  forallb (fun entry => plain_name (fst entry))
          (top_subreddits tie_posts tie_comments) = true
  /\ behaviour_section (analyze_behavior_and_habits tie_posts tie_comments)
     = [ py "BEHAVIOUR & HABITS"; rule ]
       ++ flat_map
            (fun entry =>
               [ BULLET ++ py " " ++ behavior_desc entry;
                 py "  Citation: Active in r/" ++ fst entry
                 ++ py " subreddit" ])
            (top_subreddits tie_posts tie_comments)
       ++ map (fun behavior => BULLET ++ py " " ++ behavior)
              (posting_pattern tie_posts ++ commenting_pattern tie_comments)
       ++ [ [] ].
Proof.
  split; [reflexivity|].
  exact (@behaviour_citations_name_subreddit tie_posts tie_comments eq_refl).
Defined.

(** ** The motivation bars *)

Lemma flat_map_filter A B (keep : A -> bool) (f : A -> B) (l : list A) :
  flat_map (fun a => if keep a then [f a] else []) l = map f (filter keep l).
Proof.
  induction l as [|a l IH]; simpl; [reflexivity|].
  destruct (keep a); simpl; rewrite IH; reflexivity.
Qed.

Lemma analyze_motivations_table lower posts comments :
  analyze_motivations lower posts comments
  = map (fun entry =>
           (fst entry,
            Z.min (sum_counts (content_text lower posts comments) (snd entry)
                   * 10) 100))
        motivation_keywords.
Proof.
  unfold analyze_motivations.
  generalize (content_text lower posts comments). intros text.
  generalize (fun kws => Z.min (sum_counts text kws * 10) 100).
  intros f. reflexivity.
Qed.

(** X13: the motivations block of the report of the analyzer's scores has
    one line per category whose score exceeds 20, in table order, at most
    six; every such score is a multiple of 10 from 30 to 100, and its bar
    is [score//10] filled glyphs followed by [10 - score//10] track glyphs,
    ten in all. *)
Theorem motivations_section_bars :
  forall (lower title : pystr -> pystr) (posts : list Post)
         (comments : list Comment),
  let scores := analyze_motivations lower posts comments in
  let shown := filter (fun entry => 20 <? snd entry) scores in
  motivations_section title scores
  = [ py "MOTIVATIONS"; rule ]
    ++ map (fun entry =>
              ljust 15 (title (replace_char 95%N 32%N (fst entry)))
              ++ py " "
              ++ bar (Z.to_nat (snd entry / 10))
                     (Z.to_nat (10 - snd entry / 10))
              ++ py " (" ++ PyStr.of_int (snd entry) ++ py "%)")
           shown
    ++ [ [] ]
  /\ (length shown <= 6)%nat
  /\ Forall (fun entry =>
               30 <= snd entry <= 100 /\ snd entry mod 10 = 0
               /\ length (bar (Z.to_nat (snd entry / 10))
                              (Z.to_nat (10 - snd entry / 10))) = 10%nat)
            shown.
Proof.
  intros lower title posts comments scores shown. split; [|split].
  - unfold motivations_section, Dict.items. cbv zeta.
    f_equal. f_equal. fold shown.
    rewrite (flat_map_filter (fun entry : pystr * Z => 20 <? snd entry)).
    fold shown. apply map_ext. intros e.
    unfold bar, FULL_BLOCK, LIGHT_SHADE.
    rewrite !repeat_str_single, <- !app_assoc. reflexivity.
  - unfold shown, scores.
    pose proof (filter_length_le (fun entry : pystr * Z => 20 <? snd entry)
                  (analyze_motivations lower posts comments)) as H.
    rewrite analyze_motivations_table in H at 2.
    rewrite length_map in H. exact H.
  - apply Forall_forall. intros e He. unfold shown in He.
    apply filter_In in He. destruct He as [Hin Hgt].
    apply Z.ltb_lt in Hgt. unfold scores in Hin.
    rewrite analyze_motivations_table in Hin. apply in_map_iff in Hin.
    destruct Hin as (entry & <- & _). cbn [snd] in *.
    set (n := sum_counts (content_text lower posts comments) (snd entry)) in *.
    pose proof (sum_counts_nonneg (content_text lower posts comments)
                  (snd entry)) as Hn. fold n in Hn.
    assert (Hs : Z.min (n * 10) 100 = n * 10 /\ 3 <= n <= 9
                 \/ Z.min (n * 10) 100 = 100) by lia.
    destruct Hs as [[-> Hr]| ->].
    + rewrite Z.mod_mul, Z.div_mul by lia.
      split; [lia|]. split; [reflexivity|].
      unfold bar. rewrite length_app, !repeat_length. lia.
    + split; [lia|]. split; reflexivity.
Qed.

(** ** The ends of an axis *)

Lemma shr_fexp_ge Bl Bu mx ex lx mrs e1 :
  0 < Bu < 2 ^ 52 -> 0 <= Bl -> 0 <= mx -> ex <= 0 ->
  mx + inexact lx <= Bu * 2 ^ (- ex) ->
  Bl * 2 ^ (- ex) <= mx ->
  shr_fexp Binary64.prec Binary64.emax mx ex lx = (mrs, e1) ->
  Bl * 2 ^ (- e1) <= shr_m mrs.
Proof.
  intros HBu HBl Hmx Hex Hle Hge E.
  destruct (Binary64Facts.shr_fexp_le _ HBu Hmx Hex Hle E) as (He1 & _ & _).
  revert E. unfold shr_fexp, shr. rewrite Binary64Facts.fexp_eq.
  destruct (Z.max (Zdigits2 mx + ex - 53) (-1074) - ex) as [|p|p] eqn:En;
    intros E; inversion E; subst mrs e1; clear E.
  - rewrite Binary64Facts.shr_m_record_of_loc. exact Hge.
  - rewrite Binary64Facts.iter_shr_m;
      rewrite Binary64Facts.shr_m_record_of_loc; [|assumption].
    assert (Hp : 0 < 2 ^ Zpos p) by (apply Z.pow_pos_nonneg; lia).
    apply Z.div_le_lower_bound; [exact Hp|].
    replace (- ex) with (Zpos p + - (ex + Zpos p)) in Hge by lia.
    rewrite Z.pow_add_r in Hge by lia. lia.
  - rewrite Binary64Facts.shr_m_record_of_loc. exact Hge.
Qed.

Lemma binary_round_aux_ge Bl Bu mx ex lx :
  0 < Bu < 2 ^ 52 -> 0 < Bl -> 0 <= mx -> ex <= 0 ->
  mx + inexact lx <= Bu * 2 ^ (- ex) ->
  Bl * 2 ^ (- ex) <= mx ->
  at_least Bl (binary_round_aux Binary64.prec Binary64.emax false mx ex lx).
Proof.
  intros HBu HBl Hmx Hex Hle Hge. unfold binary_round_aux.
  destruct (shr_fexp Binary64.prec Binary64.emax mx ex lx)
    as [mrs1 e1] eqn:E1.
  destruct (Binary64Facts.shr_fexp_le _ HBu Hmx Hex Hle E1)
    as (He1 & Hm1 & Hr1).
  assert (Hg1 : Bl * 2 ^ (- e1) <= shr_m mrs1).
  { apply (@shr_fexp_ge Bl Bu mx ex lx mrs1 e1); try assumption. lia. }
  pose proof (Binary64Facts.round_nearest_even_bounds (shr_m mrs1)
                (loc_of_shr_record mrs1)) as Hb1.
  set (m1 := round_nearest_even (shr_m mrs1) (loc_of_shr_record mrs1)) in *.
  destruct (shr_fexp Binary64.prec Binary64.emax m1 e1 loc_Exact)
    as [mrs2 e2] eqn:E2.
  assert (Hm1' : 0 <= m1) by lia.
  assert (Hle2 : m1 + inexact loc_Exact <= Bu * 2 ^ (- e1)) by (simpl; lia).
  destruct (Binary64Facts.shr_fexp_le _ HBu Hm1' He1 Hle2 E2)
    as (He2 & Hm2 & Hr2).
  assert (Hg2 : Bl * 2 ^ (- e2) <= shr_m mrs2).
  { apply (@shr_fexp_ge Bl Bu m1 e1 loc_Exact mrs2 e2); try assumption; lia. }
  assert (Hpos : 0 < 2 ^ (- e2)) by (apply Z.pow_pos_nonneg; lia).
  destruct (shr_m mrs2) as [|m|m] eqn:Em; [nia| |nia].
  destruct (Z.leb_spec e2 (Binary64.emax - Binary64.prec)) as [_|Hgt].
  - simpl. split; assumption.
  - unfold Binary64.emax, Binary64.prec in Hgt. lia.
Qed.

Lemma percent_of_none b : 0 < b -> percent_of 0 b = Some 0.
Proof.
  intros Hb. unfold percent_of, Binary64.int_truediv.
  destruct (Z.eqb_spec b 0) as [|_]; [lia|].
  destruct b as [|t|t]; try lia. reflexivity.
Qed.

Lemma int_div_self p :
  within 1 (SFdiv Binary64.prec Binary64.emax
              (S754_finite false p 0) (S754_finite false p 0))
  /\ at_least 1 (SFdiv Binary64.prec Binary64.emax
                   (S754_finite false p 0) (S754_finite false p 0)).
Proof.
  split; [apply Binary64Facts.int_div_within; lia|].
  unfold SFdiv, SFdiv_core_binary.
  set (e' := Z.min _ _).
  assert (He' : e' <= 0) by (unfold e'; lia).
  set (m' := match 0 - 0 - e' with
             | 0 => Zpos p | Zpos _ => Z.shiftl (Zpos p) (0 - 0 - e')
             | Zneg _ => 0 end).
  assert (Hm' : m' = Zpos p * 2 ^ (- e')).
  { unfold m'. replace (0 - 0 - e') with (- e') by lia.
    destruct (- e') as [|s|s] eqn:Es; try lia.
    apply Z.shiftl_mul_pow2. lia. }
  pose proof (Z_div_mod m' (Zpos p) eq_refl) as Hdiv.
  destruct (Z.div_eucl m' (Zpos p)) as [q r]. destruct Hdiv as [Hq Hr].
  assert (Hpow : 0 < 2 ^ (- e')) by (apply Z.pow_pos_nonneg; lia).
  assert (Hqe : q = 2 ^ (- e')) by nia.
  assert (Hr0 : r = 0) by nia. subst r.
  rewrite Binary64Facts.new_location_zero.
  simpl xorb. apply binary_round_aux_ge with (Bu := 1); simpl inexact; lia.
Qed.

Lemma percent_of_all b : 0 < b -> percent_of b b = Some 100.
Proof.
  intros Hb. unfold percent_of, Binary64.int_truediv.
  destruct (Z.eqb_spec b 0) as [|_]; [lia|].
  destruct b as [|p|p]; try lia. cbn [Binary64.exact_of_int].
  destruct (int_div_self p) as [Hw Hl].
  destruct (SFdiv _ _ _ _) as [[]|[]| |[] m e];
    try (exfalso; exact Hl).
  destruct Hw as [He Hm]. destruct Hl as [_ Hm'].
  rewrite Binary64Facts.hundred_eq. unfold Binary64.mul, SFmul. cbn [xorb].
  assert (Hpow : 0 < 2 ^ (- e)) by (apply Z.pow_pos_nonneg; lia).
  assert (Hmant : Zpos (m * 7036874417766400) = 100 * 2 ^ (- (e + -46))).
  { rewrite Pos2Z.inj_mul.
    replace (- (e + -46)) with (- e + 46) by lia.
    rewrite Z.pow_add_r by lia.
    change (Zpos 7036874417766400) with (100 * 2 ^ 46). nia. }
  assert (HB : 0 < 100 < 2 ^ 52) by (split; [lia|reflexivity]).
  pose proof (@Binary64Facts.binary_round_aux_le 100
                (Zpos (m * 7036874417766400)) (e + -46) loc_Exact HB)
    as Hup.
  pose proof (@binary_round_aux_ge 100 100
                (Zpos (m * 7036874417766400)) (e + -46) loc_Exact HB)
    as Hlo.
  simpl inexact in Hup, Hlo.
  assert (Hw2 := Hup ltac:(lia) ltac:(lia) ltac:(lia)).
  assert (Hl2 := Hlo ltac:(lia) ltac:(lia) ltac:(lia) ltac:(lia) ltac:(lia)).
  destruct (binary_round_aux _ _ _ _ _ _) as [[]|[]| |[] m2 e2];
    try (exfalso; exact Hl2).
  destruct Hw2 as [He2 Hm2]. destruct Hl2 as [_ Hm2'].
  unfold Binary64.to_int. cbn [cond_Zopp]. f_equal.
  assert (Hpow2 : 0 < 2 ^ (- e2)) by (apply Z.pow_pos_nonneg; lia).
  assert (Heq : Zpos m2 = 100 * 2 ^ (- e2)) by lia.
  destruct (Z.leb_spec 0 e2) as [H0|H0].
  - assert (e2 = 0) by lia. subst e2. rewrite Heq. reflexivity.
  - rewrite Heq. apply Z.div_mul. lia.
Qed.

(** X14: an axis score is 0 when only keywords of the pole at 0 occur in
    the text, and 100 when only keywords of the pole at 100 occur: the
    binary64 quotient and product are exact there. *)
Theorem axis_score_extremes (pole_a pole_b text : _) :
  sum_counts text pole_a = 0 \/ sum_counts text pole_b = 0 ->
  0 < sum_counts text pole_a + sum_counts text pole_b ->
  axis_score pole_a pole_b text
  = Some (if sum_counts text pole_b =? 0 then 0 else 100).
Proof.
  intros Hone Hsome. unfold axis_score.
  pose proof (sum_counts_nonneg text pole_a) as Ha.
  pose proof (sum_counts_nonneg text pole_b) as Hb.
  destruct (Z.eqb_spec (sum_counts text pole_b + sum_counts text pole_a) 0)
    as [|_]; [lia|].
  destruct (Z.eqb_spec (sum_counts text pole_b) 0) as [E|E].
  - rewrite E. apply percent_of_none. lia.
  - assert (Ea : sum_counts text pole_a = 0) by lia.
    rewrite Ea, Z.add_0_r. apply percent_of_all. lia.
Qed.

Lemma axis_score_extremes_witness :
  (sum_counts (py "home alone") introvert_keywords = 0
   \/ sum_counts (py "home alone") extrovert_keywords = 0)
  /\ 0 < sum_counts (py "home alone") introvert_keywords
         + sum_counts (py "home alone") extrovert_keywords
  /\ _analyze_introversion_extroversion (py "home alone") = Some 0.
Proof.
  split; [right; reflexivity|]. split; [reflexivity|].
  exact (@axis_score_extremes introvert_keywords extrovert_keywords
           (py "home alone") (or_intror eq_refl) eq_refl).
Defined.

(** ** Citations of frustrations and goals *)

(** X15: in the report of a persona returned by the analyzer for at least
    one post and one comment, every frustration bullet is followed by a
    citation of the ID of the first input post, and every goal bullet by a
    citation of the ID of the first input comment, whichever item the
    sentence came from. *)
Theorem citations_name_first_sample :
  forall (lower : pystr -> pystr) (set_list : list pystr -> list pystr)
         (now user : pystr) (post : Post) (posts : list Post)
         (comment : Comment) (comments : list Comment),
  exists p,
    generate_persona lower set_list now user (post :: posts)
      (comment :: comments) = Some p
    /\ frustrations_section p
       = [ py "FRUSTRATIONS"; rule ]
         ++ flat_map
              (fun frustration =>
                 [ BULLET ++ py " " ++ frustration;
                   py "  Citation: Post ID " ++ post_id post ])
              (frustrations p)
         ++ [ [] ]
    /\ goals_section p
       = [ py "GOALS & NEEDS"; rule ]
         ++ flat_map
              (fun goal =>
                 [ BULLET ++ py " " ++ goal;
                   py "  Citation: Comment ID " ++ comment_id comment ])
              (goals p)
         ++ [ [] ].
Proof.
  intros lower set_list now user post posts comment comments.
  destruct (generate_persona_total lower set_list now user (post :: posts)
              (comment :: comments))
    as (p & pers & _ & Ep & _ & _ & _ & _ & _ & _ & _ & _ & _ & _ & _
        & Hrp & Hrc).
  exists p. split; [exact Ep|].
  unfold frustrations_section, goals_section. rewrite Hrp, Hrc.
  split; reflexivity.
Qed.

(** ** What [extract_username] returns, and when it fails *)

Lemma take_while_prefix p : forall s,
  exists rest, s = take_while p s ++ rest
               /\ forallb p (take_while p s) = true.
Proof.
  induction s as [|c s IH]; [exists []; split; reflexivity|].
  simpl. destruct (p c) eqn:Hc.
  - destruct IH as (rest & Hs & Hall). exists rest. split.
    + simpl. f_equal. exact Hs.
    + simpl. rewrite Hc. exact Hall.
  - exists (c :: s). split; reflexivity.
Qed.

Lemma username_at_sound s name :
  username_at s = Some name ->
  valid_name name
  /\ startswith (py "reddit.com/user/" ++ name) s = true.
Proof.
  unfold username_at.
  destruct (startswith (py "reddit.com/user/") s) eqn:Hs; [|discriminate].
  apply startswith_split in Hs.
  change (length (py "reddit.com/user/")) with 16%nat in Hs.
  destruct (take_while_prefix name_char (skipn 16 s)) as (rest & Hr & Hall).
  destruct (take_while name_char (skipn 16 s)) as [|c run] eqn:Et;
    [discriminate|].
  intros E. injection E as <-. split.
  - split; [discriminate|exact Hall].
  - rewrite Hs, Hr, app_assoc. apply startswith_app.
Qed.

Lemma contains_cons c s kw :
  contains s kw = true -> contains (c :: s) kw = true.
Proof. intros H. cbn [contains]. rewrite H. apply orb_true_r. Qed.

(** X16: a name returned by [extract_username] is never empty, consists of
    code points of [a-zA-Z0-9_-], and occurs in the URL right after
    "reddit.com/user/". *)
Theorem extract_username_sound (url name : pystr) :
  extract_username url = Some name ->
  valid_name name
  /\ contains url (py "reddit.com/user/" ++ name) = true.
Proof.
  unfold extract_username. induction url as [|c url IH]; intros H.
  - discriminate H.
  - cbn [search_username] in H.
    destruct (username_at (c :: url)) eqn:E.
    + injection H as ->. apply username_at_sound in E.
      destruct E as [Hv Hs]. split; [exact Hv|].
      apply startswith_contains. exact Hs.
    + destruct (IH H) as [Hv Hc]. split; [exact Hv|].
      apply contains_cons. exact Hc.
Qed.

Lemma extract_username_sound_witness :
  extract_username bob_url = Some bob
  /\ valid_name bob
  /\ contains bob_url (py "reddit.com/user/" ++ bob) = true.
Proof.
  split; [reflexivity|].
  exact (@extract_username_sound bob_url bob eq_refl).
Defined.

(** X17: [extract_username] raises its [ValueError] on every string that
    does not contain "reddit.com/user/". *)
Theorem extract_username_rejects (url : pystr) :
  contains url (py "reddit.com/user/") = false ->
  extract_username url = None.
Proof.
  unfold extract_username. induction url as [|c url IH]; intros H.
  - reflexivity.
  - cbn [contains] in H. apply orb_false_iff in H. destruct H as [Hs Hc].
    cbn [search_username]. unfold username_at at 1. rewrite Hs.
    apply IH. exact Hc.
Qed.

Lemma extract_username_rejects_witness :
  contains (py "https://www.reddit.com/r/python/") (py "reddit.com/user/")
  = false
  /\ extract_username (py "https://www.reddit.com/r/python/") = None.
Proof.
  split; [reflexivity|].
  exact (@extract_username_rejects (py "https://www.reddit.com/r/python/")
           eq_refl).
Defined.

(** ** The default report file *)




